(** * AI Studio "Nano Banana" style-fusion page: request orchestration

    A shallow embedding of [index.tsx]: the page state (module-level
    variables and the DOM properties the script reads or writes), the
    event handlers as resumable computations that suspend at each
    [await], and the properties of the submit, upload, gallery and
    start-up paths. *)

From Stdlib Require Import Ascii String NArith.
From stdpp Require Import base option list strings relations.

(** ** JavaScript strings

    A string is held as the UTF-8 bytes of its code points.  Splitting at
    a comma, testing a prefix in ASCII, appending and testing emptiness
    are on these bytes what they are on the code units. *)

Module Js.

(** The string of the bytes of given codes. *)
Definition bytes (codes : list N) : string :=
  fold_right (λ c s, String (ascii_of_N c) s) EmptyString codes.

(** The code points that [String.prototype.trim] strips (WhiteSpace and
    LineTerminator of ECMAScript), each as its UTF-8 bytes: U+0009 to
    U+000D, U+0020, U+00A0, U+1680, U+2000 to U+200A, U+2028, U+2029,
    U+202F, U+205F, U+3000 and U+FEFF. *)
Definition white_space_units : list string :=
  Eval vm_compute in
    bytes <$>
      [[9]; [10]; [11]; [12]; [13]; [32];
       [194; 160];
       [225; 154; 128];
       [226; 128; 128]; [226; 128; 129]; [226; 128; 130]; [226; 128; 131];
       [226; 128; 132]; [226; 128; 133]; [226; 128; 134]; [226; 128; 135];
       [226; 128; 136]; [226; 128; 137]; [226; 128; 138];
       [226; 128; 168]; [226; 128; 169];
       [226; 128; 175];
       [226; 129; 159];
       [227; 128; 128];
       [239; 187; 191]]%N.

Definition is_unit (w : string) : bool :=
  existsb (String.eqb w) white_space_units.

Fixpoint trimStart (s : string) : string :=
  match s with
  | EmptyString => s
  | String a r1 =>
      if is_unit (String a EmptyString) then trimStart r1
      else
        match r1 with
        | EmptyString => s
        | String b r2 =>
            if is_unit (String a (String b EmptyString)) then trimStart r2
            else
              match r2 with
              | EmptyString => s
              | String c r3 =>
                  if is_unit (String a (String b (String c EmptyString)))
                  then trimStart r3
                  else s
              end
        end
  end.

Fixpoint all_white_space (s : string) : bool :=
  match s with
  | EmptyString => true
  | String a r1 =>
      if is_unit (String a EmptyString) then all_white_space r1
      else
        match r1 with
        | EmptyString => false
        | String b r2 =>
            if is_unit (String a (String b EmptyString))
            then all_white_space r2
            else
              match r2 with
              | EmptyString => false
              | String c r3 =>
                  is_unit (String a (String b (String c EmptyString)))
                  && all_white_space r3
              end
        end
  end.

Fixpoint trimEnd (s : string) : string :=
  match s with
  | EmptyString => EmptyString
  | String a r => if all_white_space s then EmptyString
                  else String a (trimEnd r)
  end.

(** [s.trim()] *)
Definition trim (s : string) : string := trimEnd (trimStart s).

(** Truthiness of a string value: only the empty string is falsy. *)
Definition truthy (s : string) : bool :=
  match s with EmptyString => false | String _ _ => true end.

(** Truthiness of a [string | null] value. *)
Definition truthy_or_null (v : option string) : bool :=
  match v with None => false | Some s => truthy s end.

(** [s.startsWith(p)] *)
Definition startsWith (p s : string) : bool := String.prefix p s.

(** [s.split(sep)] for a separator of one ASCII character. *)
Fixpoint split (sep : ascii) (s : string) : list string :=
  match s with
  | EmptyString => [EmptyString]
  | String c r =>
      if Ascii.eqb c sep then EmptyString :: split sep r
      else match split sep r with
           | h :: t => String c h :: t
           | [] => [String c EmptyString]
           end
  end.

(** A value interpolated in a template literal; [None] is [undefined]. *)
Definition interpolate (v : option string) : string :=
  match v with Some s => s | None => "undefined" end.

End Js.

(** ** Data model *)

(** What [fileToGenerativePart] and [urlToGenerativePart] resolve to.
    [base64] is element 1 of a split, hence possibly [undefined]. *)
Record EncodedImage : Type := mkEncodedImage {
  base64 : option string;
  mimeType : string
}.

(** The SDK's [Blob] and [Part], with the fields the script touches. *)
Record Blob : Type := mkBlob {
  data : option string;
  blob_mimeType : option string
}.

Record Part : Type := mkPart {
  inlineData : option Blob;
  text : option string
}.

Inductive Modality : Type := IMAGE | TEXT.

(** Argument of [ai.models.generateContent]. *)
Record Request : Type := mkRequest {
  model : string;
  contents_parts : list Part;
  responseModalities : list Modality
}.

Record Content : Type := mkContent { parts : option (list Part) }.
Record Candidate : Type := mkCandidate { content : option Content }.
Record Response : Type := mkResponse { candidates : option (list Candidate) }.

(** A thrown value: an [Error] instance with its message, or anything else. *)
Inductive Thrown : Type :=
| ErrorInstance (message : string)
| OtherValue.

(** How an awaited promise settles. *)
Inductive Outcome (A : Type) : Type :=
| Resolved (a : A)
| Rejected (v : Thrown).
Arguments Resolved {A} a.
Arguments Rejected {A} v.

(** A [File]: only its declared media type is read. *)
Record File : Type := mkFile { file_type : string }.

(** [style.display] of an element; [d_unset] is the value before the
    script assigns it. *)
Inductive Display : Type := d_unset | d_none | d_block | d_flex.

(** A gallery [<img class="reference-img">]; [selected] tells whether its
    class list holds ['selected']. *)
Record Img : Type := mkImg {
  src : string;
  selected : bool
}.

(** The element a gallery click hits: the image at a position of the
    gallery, or an element that is not an [IMG]. *)
Inductive Target : Type :=
| TargetImg (i : nat)
| TargetOther.

(** ** Page state

    The module-level variables [uploadedImage] and
    [selectedReferenceImage], the DOM properties the script uses, and
    [listening]: whether [initializeEventListeners] has run.  The variable
    [ai] is assigned once in [main] before any listener is attached and
    never again, so inside a handler it is the constructed client. *)

Record State : Type := mkState {
  uploadArea_dragover : bool;
  uploadPrompt_display : Display;
  imageUploadInput_value : string;
  previewImage_src : string;
  previewImage_display : Display;
  removeImageBtn_display : Display;
  referenceGallery : list Img;
  promptInput_value : string;
  promptInput_disabled : bool;
  generateBtn_disabled : bool;
  resultPlaceholder_display : Display;
  resultImage_src : string;
  resultImage_display : Display;
  loader_display : Display;
  errorMessage_textContent : string;
  errorMessage_display : Display;
  downloadBtn_display : Display;
  uploadedImage : option EncodedImage;
  selectedReferenceImage : option string;
  listening : bool
}.

Definition set_uploadArea_dragover (v : bool) (st : State) : State :=
  mkState v (uploadPrompt_display st) (imageUploadInput_value st)
    (previewImage_src st) (previewImage_display st)
    (removeImageBtn_display st) (referenceGallery st) (promptInput_value st)
    (promptInput_disabled st) (generateBtn_disabled st)
    (resultPlaceholder_display st) (resultImage_src st)
    (resultImage_display st) (loader_display st)
    (errorMessage_textContent st) (errorMessage_display st)
    (downloadBtn_display st) (uploadedImage st) (selectedReferenceImage st)
    (listening st).

Definition set_uploadPrompt_display (v : Display) (st : State) : State :=
  mkState (uploadArea_dragover st) v (imageUploadInput_value st)
    (previewImage_src st) (previewImage_display st)
    (removeImageBtn_display st) (referenceGallery st) (promptInput_value st)
    (promptInput_disabled st) (generateBtn_disabled st)
    (resultPlaceholder_display st) (resultImage_src st)
    (resultImage_display st) (loader_display st)
    (errorMessage_textContent st) (errorMessage_display st)
    (downloadBtn_display st) (uploadedImage st) (selectedReferenceImage st)
    (listening st).

Definition set_imageUploadInput_value (v : string) (st : State) : State :=
  mkState (uploadArea_dragover st) (uploadPrompt_display st) v
    (previewImage_src st) (previewImage_display st)
    (removeImageBtn_display st) (referenceGallery st) (promptInput_value st)
    (promptInput_disabled st) (generateBtn_disabled st)
    (resultPlaceholder_display st) (resultImage_src st)
    (resultImage_display st) (loader_display st)
    (errorMessage_textContent st) (errorMessage_display st)
    (downloadBtn_display st) (uploadedImage st) (selectedReferenceImage st)
    (listening st).

Definition set_previewImage_src (v : string) (st : State) : State :=
  mkState (uploadArea_dragover st) (uploadPrompt_display st)
    (imageUploadInput_value st) v (previewImage_display st)
    (removeImageBtn_display st) (referenceGallery st) (promptInput_value st)
    (promptInput_disabled st) (generateBtn_disabled st)
    (resultPlaceholder_display st) (resultImage_src st)
    (resultImage_display st) (loader_display st)
    (errorMessage_textContent st) (errorMessage_display st)
    (downloadBtn_display st) (uploadedImage st) (selectedReferenceImage st)
    (listening st).

Definition set_previewImage_display (v : Display) (st : State) : State :=
  mkState (uploadArea_dragover st) (uploadPrompt_display st)
    (imageUploadInput_value st) (previewImage_src st) v
    (removeImageBtn_display st) (referenceGallery st) (promptInput_value st)
    (promptInput_disabled st) (generateBtn_disabled st)
    (resultPlaceholder_display st) (resultImage_src st)
    (resultImage_display st) (loader_display st)
    (errorMessage_textContent st) (errorMessage_display st)
    (downloadBtn_display st) (uploadedImage st) (selectedReferenceImage st)
    (listening st).

Definition set_removeImageBtn_display (v : Display) (st : State) : State :=
  mkState (uploadArea_dragover st) (uploadPrompt_display st)
    (imageUploadInput_value st) (previewImage_src st)
    (previewImage_display st) v (referenceGallery st) (promptInput_value st)
    (promptInput_disabled st) (generateBtn_disabled st)
    (resultPlaceholder_display st) (resultImage_src st)
    (resultImage_display st) (loader_display st)
    (errorMessage_textContent st) (errorMessage_display st)
    (downloadBtn_display st) (uploadedImage st) (selectedReferenceImage st)
    (listening st).

Definition set_referenceGallery (v : list Img) (st : State) : State :=
  mkState (uploadArea_dragover st) (uploadPrompt_display st)
    (imageUploadInput_value st) (previewImage_src st)
    (previewImage_display st) (removeImageBtn_display st) v
    (promptInput_value st) (promptInput_disabled st)
    (generateBtn_disabled st) (resultPlaceholder_display st)
    (resultImage_src st) (resultImage_display st) (loader_display st)
    (errorMessage_textContent st) (errorMessage_display st)
    (downloadBtn_display st) (uploadedImage st) (selectedReferenceImage st)
    (listening st).

Definition set_promptInput_value (v : string) (st : State) : State :=
  mkState (uploadArea_dragover st) (uploadPrompt_display st)
    (imageUploadInput_value st) (previewImage_src st)
    (previewImage_display st) (removeImageBtn_display st)
    (referenceGallery st) v (promptInput_disabled st)
    (generateBtn_disabled st) (resultPlaceholder_display st)
    (resultImage_src st) (resultImage_display st) (loader_display st)
    (errorMessage_textContent st) (errorMessage_display st)
    (downloadBtn_display st) (uploadedImage st) (selectedReferenceImage st)
    (listening st).

Definition set_promptInput_disabled (v : bool) (st : State) : State :=
  mkState (uploadArea_dragover st) (uploadPrompt_display st)
    (imageUploadInput_value st) (previewImage_src st)
    (previewImage_display st) (removeImageBtn_display st)
    (referenceGallery st) (promptInput_value st) v (generateBtn_disabled st)
    (resultPlaceholder_display st) (resultImage_src st)
    (resultImage_display st) (loader_display st)
    (errorMessage_textContent st) (errorMessage_display st)
    (downloadBtn_display st) (uploadedImage st) (selectedReferenceImage st)
    (listening st).

Definition set_generateBtn_disabled (v : bool) (st : State) : State :=
  mkState (uploadArea_dragover st) (uploadPrompt_display st)
    (imageUploadInput_value st) (previewImage_src st)
    (previewImage_display st) (removeImageBtn_display st)
    (referenceGallery st) (promptInput_value st) (promptInput_disabled st) v
    (resultPlaceholder_display st) (resultImage_src st)
    (resultImage_display st) (loader_display st)
    (errorMessage_textContent st) (errorMessage_display st)
    (downloadBtn_display st) (uploadedImage st) (selectedReferenceImage st)
    (listening st).

Definition set_resultPlaceholder_display (v : Display) (st : State) : State :=
  mkState (uploadArea_dragover st) (uploadPrompt_display st)
    (imageUploadInput_value st) (previewImage_src st)
    (previewImage_display st) (removeImageBtn_display st)
    (referenceGallery st) (promptInput_value st) (promptInput_disabled st)
    (generateBtn_disabled st) v (resultImage_src st)
    (resultImage_display st) (loader_display st)
    (errorMessage_textContent st) (errorMessage_display st)
    (downloadBtn_display st) (uploadedImage st) (selectedReferenceImage st)
    (listening st).

Definition set_resultImage_src (v : string) (st : State) : State :=
  mkState (uploadArea_dragover st) (uploadPrompt_display st)
    (imageUploadInput_value st) (previewImage_src st)
    (previewImage_display st) (removeImageBtn_display st)
    (referenceGallery st) (promptInput_value st) (promptInput_disabled st)
    (generateBtn_disabled st) (resultPlaceholder_display st) v
    (resultImage_display st) (loader_display st)
    (errorMessage_textContent st) (errorMessage_display st)
    (downloadBtn_display st) (uploadedImage st) (selectedReferenceImage st)
    (listening st).

Definition set_resultImage_display (v : Display) (st : State) : State :=
  mkState (uploadArea_dragover st) (uploadPrompt_display st)
    (imageUploadInput_value st) (previewImage_src st)
    (previewImage_display st) (removeImageBtn_display st)
    (referenceGallery st) (promptInput_value st) (promptInput_disabled st)
    (generateBtn_disabled st) (resultPlaceholder_display st)
    (resultImage_src st) v (loader_display st) (errorMessage_textContent st)
    (errorMessage_display st) (downloadBtn_display st) (uploadedImage st)
    (selectedReferenceImage st) (listening st).

Definition set_loader_display (v : Display) (st : State) : State :=
  mkState (uploadArea_dragover st) (uploadPrompt_display st)
    (imageUploadInput_value st) (previewImage_src st)
    (previewImage_display st) (removeImageBtn_display st)
    (referenceGallery st) (promptInput_value st) (promptInput_disabled st)
    (generateBtn_disabled st) (resultPlaceholder_display st)
    (resultImage_src st) (resultImage_display st) v
    (errorMessage_textContent st) (errorMessage_display st)
    (downloadBtn_display st) (uploadedImage st) (selectedReferenceImage st)
    (listening st).

Definition set_errorMessage_textContent (v : string) (st : State) : State :=
  mkState (uploadArea_dragover st) (uploadPrompt_display st)
    (imageUploadInput_value st) (previewImage_src st)
    (previewImage_display st) (removeImageBtn_display st)
    (referenceGallery st) (promptInput_value st) (promptInput_disabled st)
    (generateBtn_disabled st) (resultPlaceholder_display st)
    (resultImage_src st) (resultImage_display st) (loader_display st) v
    (errorMessage_display st) (downloadBtn_display st) (uploadedImage st)
    (selectedReferenceImage st) (listening st).

Definition set_errorMessage_display (v : Display) (st : State) : State :=
  mkState (uploadArea_dragover st) (uploadPrompt_display st)
    (imageUploadInput_value st) (previewImage_src st)
    (previewImage_display st) (removeImageBtn_display st)
    (referenceGallery st) (promptInput_value st) (promptInput_disabled st)
    (generateBtn_disabled st) (resultPlaceholder_display st)
    (resultImage_src st) (resultImage_display st) (loader_display st)
    (errorMessage_textContent st) v (downloadBtn_display st)
    (uploadedImage st) (selectedReferenceImage st) (listening st).

Definition set_downloadBtn_display (v : Display) (st : State) : State :=
  mkState (uploadArea_dragover st) (uploadPrompt_display st)
    (imageUploadInput_value st) (previewImage_src st)
    (previewImage_display st) (removeImageBtn_display st)
    (referenceGallery st) (promptInput_value st) (promptInput_disabled st)
    (generateBtn_disabled st) (resultPlaceholder_display st)
    (resultImage_src st) (resultImage_display st) (loader_display st)
    (errorMessage_textContent st) (errorMessage_display st) v
    (uploadedImage st) (selectedReferenceImage st) (listening st).

Definition set_uploadedImage (v : option EncodedImage) (st : State) : State :=
  mkState (uploadArea_dragover st) (uploadPrompt_display st)
    (imageUploadInput_value st) (previewImage_src st)
    (previewImage_display st) (removeImageBtn_display st)
    (referenceGallery st) (promptInput_value st) (promptInput_disabled st)
    (generateBtn_disabled st) (resultPlaceholder_display st)
    (resultImage_src st) (resultImage_display st) (loader_display st)
    (errorMessage_textContent st) (errorMessage_display st)
    (downloadBtn_display st) v (selectedReferenceImage st) (listening st).

Definition set_selectedReferenceImage (v : option string) (st : State) : State :=
  mkState (uploadArea_dragover st) (uploadPrompt_display st)
    (imageUploadInput_value st) (previewImage_src st)
    (previewImage_display st) (removeImageBtn_display st)
    (referenceGallery st) (promptInput_value st) (promptInput_disabled st)
    (generateBtn_disabled st) (resultPlaceholder_display st)
    (resultImage_src st) (resultImage_display st) (loader_display st)
    (errorMessage_textContent st) (errorMessage_display st)
    (downloadBtn_display st) (uploadedImage st) v (listening st).

Definition set_listening (v : bool) (st : State) : State :=
  mkState (uploadArea_dragover st) (uploadPrompt_display st)
    (imageUploadInput_value st) (previewImage_src st)
    (previewImage_display st) (removeImageBtn_display st)
    (referenceGallery st) (promptInput_value st) (promptInput_disabled st)
    (generateBtn_disabled st) (resultPlaceholder_display st)
    (resultImage_src st) (resultImage_display st) (loader_display st)
    (errorMessage_textContent st) (errorMessage_display st)
    (downloadBtn_display st) (uploadedImage st) (selectedReferenceImage st)
    v.

(** ** Effects and suspension

    A handler runs to completion between two [await]s.  [Async] is what a
    call leaves behind: a final state, an output followed by the rest, a
    read of an image's [src] (the getter does not give back the string
    that was written, but the URL it parses to, serialised again), or a
    suspension holding the state at that point and the continuation,
    which resumes on the awaited value in whatever state the page then
    is (other handlers may have run in between). *)

Inductive Output : Type :=
| alert (msg : string)
| console_error (v : Thrown)
| download (href name : string).

Inductive Async : Type :=
| Ret (st : State)
| Emit (o : Output) (k : Async)
| ReadSrc (written : string) (k : string → Async)
| AwaitRead (f : File) (st : State) (k : string → State → Async)
| AwaitFetch (url : string) (st : State)
    (k : Outcome (string * string) → State → Async)
| AwaitGenerate (req : Request) (st : State)
    (k : Outcome Response → State → Async).

(** What an observer of one call sees, in order. *)
Inductive Obs : Type :=
| Out (o : Output)
| ReadStarted (f : File)
| FetchStarted (url : string)
| GenerateCalled (req : Request).

(** The world around one call: what a [FileReader] reads from a file (a
    data URL), what fetching a URL and reading the blob gives (the data
    URL and the blob's type, or a rejection), what the service answers,
    what the rest of the page does to the state during the [n]-th
    suspension, and what the [src] getter of an image returns for the
    string written to it. *)
Record Env : Type := mkEnv {
  read_reply : File → string;
  fetch_reply : string → Outcome (string * string);
  generate_reply : Request → Outcome Response;
  meanwhile : nat → State → State;
  src_read : string → string
}.

Fixpoint run (env : Env) (n : nat) (a : Async) : State * list Obs :=
  match a with
  | Ret st => (st, [])
  | Emit o k =>
      let r := run env n k in (r.1, Out o :: r.2)
  | ReadSrc written k => run env n (k (src_read env written))
  | AwaitRead f st k =>
      let r := run env (S n) (k (read_reply env f) (meanwhile env n st)) in
      (r.1, ReadStarted f :: r.2)
  | AwaitFetch url st k =>
      let r := run env (S n) (k (fetch_reply env url) (meanwhile env n st)) in
      (r.1, FetchStarted url :: r.2)
  | AwaitGenerate req st k =>
      let r := run env (S n) (k (generate_reply env req) (meanwhile env n st)) in
      (r.1, GenerateCalled req :: r.2)
  end.

Definition request_of (o : Obs) : option Request :=
  match o with GenerateCalled req => Some req | _ => None end.

Definition alert_of (o : Obs) : option string :=
  match o with Out (alert msg) => Some msg | _ => None end.

Definition is_network_call (o : Obs) : bool :=
  match o with
  | FetchStarted _ | GenerateCalled _ => true
  | _ => false
  end.

(** The service requests, the alerts and the network calls of a trace. *)
Definition requests (t : list Obs) : list Request := omap request_of t.
Definition alerts (t : list Obs) : list string := omap alert_of t.
Definition network_calls (t : list Obs) : list Obs := filter is_network_call t.

(** ** Sample reference images *)

Definition referenceImages : list string := [
  "https://storage.googleapis.com/maker-suite-media/user-prompt-images/style-transfer-clay.png";
  "https://storage.googleapis.com/maker-suite-media/user-prompt-images/style-transfer-gold.png";
  "https://storage.googleapis.com/maker-suite-media/user-prompt-images/style-transfer-mosaic.png";
  "https://storage.googleapis.com/maker-suite-media/user-prompt-images/style-transfer-origami.png";
  "https://storage.googleapis.com/maker-suite-media/user-prompt-images/style-transfer-pixel.png";
  "https://storage.googleapis.com/maker-suite-media/user-prompt-images/style-transfer-terracotta.png";
  "https://storage.googleapis.com/maker-suite-media/user-prompt-images/style-transfer-topiary.png";
  "https://storage.googleapis.com/maker-suite-media/user-prompt-images/style-transfer-wool.png"
].

(** ** Helper functions *)

(** [dataURL.split(',')[1]] *)
Definition payload_of (dataURL : string) : option string :=
  Js.split "," dataURL !! 1.

(** The promise resolves from [reader.onload] only. *)
Definition fileToGenerativePart (file : File) (st : State)
    (k : EncodedImage → State → Async) : Async :=
  AwaitRead file st (λ result st',
    k (mkEncodedImage (payload_of result) (file_type file)) st').

(** [fetch], [response.blob()] and the reader are one suspension here:
    the caller touches no state between them. *)
Definition urlToGenerativePart (url : string) (st : State)
    (k : Outcome EncodedImage → State → Async) : Async :=
  AwaitFetch url st (λ o st',
    match o with
    | Resolved (result, blob_type) =>
        k (Resolved (mkEncodedImage (payload_of result) blob_type)) st'
    | Rejected v => k (Rejected v) st'
    end).

(** [!v] for an object-or-null variable. *)
Definition is_null {A : Type} (v : option A) : bool :=
  match v with None => true | Some _ => false end.

Definition updateUIState (st : State) : State :=
  set_generateBtn_disabled (is_null (uploadedImage st)) st.

Definition setLoading (isLoading : bool) (st : State) : State :=
  if isLoading then
    let st := set_loader_display d_block st in
    let st := set_resultPlaceholder_display d_none st in
    let st := set_resultImage_display d_none st in
    let st := set_errorMessage_display d_none st in
    let st := set_downloadBtn_display d_none st in
    set_generateBtn_disabled true st
  else
    let st := set_loader_display d_none st in
    let st := set_generateBtn_disabled false st in
    updateUIState st.

Definition displayError (message : string) (st : State) : State :=
  let st := setLoading false st in
  let st := set_errorMessage_textContent ("Error: " +:+ message) st in
  set_errorMessage_display d_block st.

(** [`data:${mimeType};base64,${base64}`] *)
Definition data_url (mime payload : option string) : string :=
  "data:" +:+ Js.interpolate mime +:+ ";base64," +:+ Js.interpolate payload.

(** ** Event handlers *)

Definition handleImageUpload (file : File) (st : State) : Async :=
  if negb (Js.startsWith "image/" (file_type file)) then
    Emit (alert "Please select an image file.") (Ret st)
  else
    fileToGenerativePart file st (λ img st,
      let st := set_uploadedImage (Some img) st in
      let st := set_previewImage_src
                  (data_url (Some (mimeType img)) (base64 img)) st in
      let st := set_previewImage_display d_block st in
      let st := set_uploadPrompt_display d_none st in
      let st := set_removeImageBtn_display d_flex st in
      Ret (updateUIState st)).

Definition handleRemoveImage (st : State) : State :=
  let st := set_uploadedImage None st in
  let st := set_imageUploadInput_value "" st in
  let st := set_previewImage_src "" st in
  let st := set_previewImage_display d_none st in
  let st := set_uploadPrompt_display d_flex st in
  let st := set_removeImageBtn_display d_none st in
  updateUIState st.

(** [classList.remove('selected')] and [classList.add('selected')] *)
Definition remove_selected (img : Img) : Img := mkImg (src img) false.
Definition add_selected (img : Img) : Img := mkImg (src img) true.

(** [document.querySelector('.reference-img.selected')] followed by
    [classList.remove('selected')]: the first selected image, in document
    order, loses the class. *)
Fixpoint deselect_previous (g : list Img) : list Img :=
  match g with
  | [] => []
  | img :: rest =>
      if selected img then remove_selected img :: rest
      else img :: deselect_previous rest
  end.

Definition handleReferenceImageSelect (e : Target) (st : State) : State :=
  match e with
  | TargetOther => st
  | TargetImg i =>
      match referenceGallery st !! i with
      | None => st
      | Some target =>
          let st := set_referenceGallery
                      (deselect_previous (referenceGallery st)) st in
          if bool_decide (selectedReferenceImage st = Some (src target)) then
            set_selectedReferenceImage None st
          else
            let st := set_referenceGallery
                        (alter add_selected i (referenceGallery st)) st in
            set_selectedReferenceImage (Some (src target)) st
      end
  end.

Definition default_instruction : string :=
  "Apply the style of the second image to the first image.".

Definition inline_part (img : EncodedImage) : Part :=
  mkPart (Some (mkBlob (base64 img) (Some (mimeType img)))) None.

Definition text_part (s : string) : Part := mkPart None (Some s).

(** [response.candidates?.[0]?.content?.parts?.find(p => p.inlineData)
    ?.inlineData] *)
Definition imagePart (response : Response) : option Blob :=
  cs ← candidates response;
  c ← cs !! 0;
  ct ← content c;
  ps ← parts ct;
  p ← List.find (λ part, negb (is_null (inlineData part))) ps;
  inlineData p.

(** The [finally] block. *)
Definition generate_finally (st : State) : Async :=
  Ret (setLoading false st).

(** [error instanceof Error ? error.message : 'An unknown error occurred.'] *)
Definition shown_message (error : Thrown) : string :=
  match error with
  | ErrorInstance message => message
  | OtherValue => "An unknown error occurred."
  end.

(** The [catch] block, then [finally]. *)
Definition generate_catch (error : Thrown) (st : State) : Async :=
  Emit (console_error error)
    (let st := displayError (shown_message error) st in
     generate_finally st).

(** The rest of the [try] block once the service call has settled. *)
Definition generate_settled (o : Outcome Response) (st : State) : Async :=
  match o with
  | Rejected error => generate_catch error st
  | Resolved response =>
      match imagePart response with
      | Some image =>
          let st := set_resultImage_src
                      (data_url (blob_mimeType image) (data image)) st in
          let st := set_resultImage_display d_block st in
          let st := set_downloadBtn_display d_flex st in
          generate_finally st
      | None =>
          let st := displayError
            "No image was generated. Please try a different prompt." st in
          generate_finally st
      end
  end.

Definition generate_request (contents : list Part) : Request :=
  mkRequest "gemini-2.5-flash-image-preview" contents [IMAGE; TEXT].

(** [await ai.models.generateContent({...})] and what follows. *)
Definition generate_call (contents : list Part) (st : State) : Async :=
  AwaitGenerate (generate_request contents) st generate_settled.

(** The rest of the [try] block once [urlToGenerativePart] has settled;
    [contents] and [promptText] are the locals built before the [await]. *)
Definition reference_settled (contents : list Part) (promptText : string)
    (o : Outcome EncodedImage) (st : State) : Async :=
  match o with
  | Rejected error => generate_catch error st
  | Resolved refImagePart =>
      let contents := contents ++ [inline_part refImagePart] in
      let promptText :=
        if negb (Js.truthy promptText) then default_instruction
        else promptText in
      generate_call (contents ++ [text_part promptText]) st
  end.

Definition handleGenerateClick (st : State) : Async :=
  match uploadedImage st with
  | None => Emit (alert "Please upload an image first.") (Ret st)
  | Some uploaded =>
      if negb (Js.truthy_or_null (selectedReferenceImage st))
         && negb (Js.truthy (Js.trim (promptInput_value st)))
      then
        Emit (alert "Please either select a style image or write a prompt.")
          (Ret st)
      else
        let st := setLoading true st in
        let contents := [inline_part uploaded] in
        let promptText := Js.trim (promptInput_value st) in
        match selectedReferenceImage st with
        | Some url =>
            if Js.truthy url then
              urlToGenerativePart url st (reference_settled contents promptText)
            else generate_call (contents ++ [text_part promptText]) st
        | None => generate_call (contents ++ [text_part promptText]) st
        end
  end.

(** ** Initialization *)

(** [src] of a gallery image is what its getter returns; the preset URLs
    are absolute and in serialised form, so it is the string written. *)
Definition initializeGallery (st : State) : State :=
  set_referenceGallery
    (referenceGallery st ++ ((λ s, mkImg s false) <$> referenceImages)) st.

Definition initializeEventListeners (st : State) : State :=
  set_listening true st.

(** [main]; [client] is how [new GoogleGenAI(...)] ends. *)
Definition main (client : Outcome unit) (st : State) : Async :=
  match client with
  | Rejected error =>
      Emit (console_error error)
        (let st := displayError
           "Could not initialize the AI service. Please check your API key setup."
           st in
         let st := set_generateBtn_disabled true st in
         let st := set_promptInput_disabled true st in
         Ret st)
  | Resolved _ =>
      let st := initializeGallery st in
      let st := initializeEventListeners st in
      Ret (updateUIState st)
  end.

(** ** Events

    What the user can do to the page.  A listener runs only once
    [initializeEventListeners] has attached it; a disabled button fires no
    click and a disabled text area takes no input. *)

Inductive Event : Type :=
| UploadAreaClick
| InputChange (files : option (list File))
| DragOver
| DragLeave
| Drop (files : option (list File))
| RemoveClick
| GalleryClick (target : Target)
| GenerateClick
| DownloadClick
| PromptEdit (value : string).

(** [if (files && files.length > 0) handleImageUpload(files[0])] *)
Definition upload_first (files : option (list File)) (st : State) : Async :=
  match files with
  | Some (file :: _) => handleImageUpload file st
  | _ => Ret st
  end.

Definition listener (ev : Event) (st : State) : Async :=
  match ev with
  | UploadAreaClick => Ret st
  | InputChange files => upload_first files st
  | DragOver => Ret (set_uploadArea_dragover true st)
  | DragLeave => Ret (set_uploadArea_dragover false st)
  | Drop files => upload_first files (set_uploadArea_dragover false st)
  | RemoveClick => Ret (handleRemoveImage st)
  | GalleryClick target => Ret (handleReferenceImageSelect target st)
  | GenerateClick =>
      if generateBtn_disabled st then Ret st else handleGenerateClick st
  | DownloadClick =>
      ReadSrc (resultImage_src st) (λ href,
        Emit (download href "fused-image.png") (Ret st))
  | PromptEdit _ => Ret st
  end.

Definition dispatch (ev : Event) (st : State) : Async :=
  match ev with
  | PromptEdit value =>
      if promptInput_disabled st then Ret st
      else Ret (set_promptInput_value value st)
  | _ => if listening st then listener ev st else Ret st
  end.

(** A session: each event's handler is run to its end in [env]. *)
Fixpoint session (env : Env) (evs : list Event) (st : State)
    : State * list Obs :=
  match evs with
  | [] => (st, [])
  | ev :: rest =>
      let r := run env 0 (dispatch ev st) in
      let r' := session env rest r.1 in
      (r'.1, r.2 ++ r'.2)
  end.

(** An environment in which nothing else happens during a suspension. *)
Definition quiet (env : Env) : Prop := ∀ n st, meanwhile env n st = st.

(** One step of the rest of the page while a submission is suspended:
    any event but a second submission, handled to its end. *)
Definition user_step (st st' : State) : Prop :=
  ∃ ev env,
    ev ≠ GenerateClick ∧ quiet env ∧ st' = (run env 0 (dispatch ev st)).1.

(** Environments whose interleaved activity is made of such steps. *)
Definition calm (env : Env) : Prop :=
  ∀ n st, rtc user_step st (meanwhile env n st).

(** ** Predicates of the statements *)

(** The selection, when there is one, is not the empty string (the one
    string [if (selectedReferenceImage)] takes for no selection). *)
Definition sane_selection (st : State) : Prop :=
  selectedReferenceImage st ≠ Some "".

(** The gallery and the selection agree: sources are distinct and not
    empty, an image carries the class exactly when it is the selection,
    and the selection is the source of a gallery image. *)
Definition gallery_ok (st : State) : Prop :=
  NoDup (src <$> referenceGallery st) ∧
  (∀ img, img ∈ referenceGallery st → src img ≠ "") ∧
  (∀ img, img ∈ referenceGallery st →
     selected img = true ↔ selectedReferenceImage st = Some (src img)) ∧
  (∀ url, selectedReferenceImage st = Some url →
     url ∈ src <$> referenceGallery st).

(** The white space of ECMAScript, by code point: the WhiteSpace
    characters TAB, VT, FF, SP, NBSP, ZWNBSP and the space separators
    U+1680, U+2000 to U+200A, U+202F, U+205F and U+3000, and the
    line terminators LF, CR, LS and PS. *)
Definition white_space : list N :=
  [0x9; 0xA; 0xB; 0xC; 0xD; 0x20; 0xA0; 0x1680;
   0x2000; 0x2001; 0x2002; 0x2003; 0x2004; 0x2005; 0x2006; 0x2007;
   0x2008; 0x2009; 0x200A; 0x2028; 0x2029; 0x202F; 0x205F; 0x3000;
   0xFEFF]%N.

(** The UTF-8 bytes of a code point below U+10000. *)
Definition utf8 (cp : N) : string :=
  if (cp <? 0x80)%N then Js.bytes [cp]
  else if (cp <? 0x800)%N then
    Js.bytes [0xC0 + cp / 0x40; 0x80 + cp mod 0x40]%N
  else
    Js.bytes [0xE0 + cp / 0x1000; 0x80 + (cp / 0x40) mod 0x40;
              0x80 + cp mod 0x40]%N.

Definition white_space_strings : list string := utf8 <$> white_space.

(** A string made of white space only. *)
Inductive Blank : string → Prop :=
| Blank_nil : Blank ""
| Blank_unit w s : w ∈ white_space_strings → Blank s → Blank (w +:+ s).

(** [s] neither starts nor ends with white space. *)
Definition bare (s : string) : Prop :=
  (∀ w q, s = w +:+ q → Blank w → w = "") ∧
  (∀ p w, s = p +:+ w → Blank w → w = "").

(** [t] is [s] less the white space around it. *)
Definition trimmed_of (s t : string) : Prop :=
  (∃ l r, s = l +:+ t +:+ r ∧ Blank l ∧ Blank r) ∧ bare t.

(** A submission that passes both checks of the handler. *)
Definition valid_submission (st : State) : Prop :=
  uploadedImage st ≠ None ∧
  (selectedReferenceImage st ≠ None ∨ Js.trim (promptInput_value st) ≠ "").

(** The text of a request for a trimmed prompt: the prompt itself, or the
    default instruction when it is empty. *)
Definition prompt_or_default (promptText : string) : string :=
  if Js.truthy promptText then promptText else default_instruction.

(** The parts of the first candidate of a response; none when the
    candidate, its content or its part list is missing. *)
Definition first_candidate_parts (response : Response) : list Part :=
  default [] (cs ← candidates response; c ← cs !! 0; ct ← content c; parts ct).

(** The result area of [st'] is that of [st]. *)
Definition same_result (st st' : State) : Prop :=
  resultImage_src st' = resultImage_src st ∧
  resultImage_display st' = resultImage_display st ∧
  downloadBtn_display st' = downloadBtn_display st ∧
  errorMessage_display st' = errorMessage_display st ∧
  errorMessage_textContent st' = errorMessage_textContent st.

(** The gallery and the selection of [st'] are those of [st]. *)
Definition same_selection (st st' : State) : Prop :=
  referenceGallery st' = referenceGallery st ∧
  selectedReferenceImage st' = selectedReferenceImage st.

(** The five ways a click on the generate button can go, with the final
    state and the trace of each: the two validation failures, a prompt
    alone, a reference image that cannot be fetched, and a reference
    image that can. *)
Inductive SubmitPath (env : Env) (n : nat) (st : State)
    : State * list Obs → Prop :=
| path_no_image :
    uploadedImage st = None →
    SubmitPath env n st (st, [Out (alert "Please upload an image first.")])
| path_no_style up :
    uploadedImage st = Some up →
    Js.truthy_or_null (selectedReferenceImage st) = false →
    Js.trim (promptInput_value st) = "" →
    SubmitPath env n st
      (st, [Out (alert
              "Please either select a style image or write a prompt.")])
| path_prompt_only up req r :
    uploadedImage st = Some up →
    Js.truthy_or_null (selectedReferenceImage st) = false →
    Js.trim (promptInput_value st) ≠ "" →
    req = generate_request
            [inline_part up; text_part (Js.trim (promptInput_value st))] →
    r = run env (S n) (generate_settled (generate_reply env req)
                         (meanwhile env n (setLoading true st))) →
    SubmitPath env n st (r.1, GenerateCalled req :: r.2)
| path_reference_rejected up url error :
    uploadedImage st = Some up →
    selectedReferenceImage st = Some url →
    url ≠ "" →
    fetch_reply env url = Rejected error →
    SubmitPath env n st
      (setLoading false
         (displayError (shown_message error)
            (meanwhile env n (setLoading true st))),
       [FetchStarted url; Out (console_error error)])
| path_reference up url result blob_type req r :
    uploadedImage st = Some up →
    selectedReferenceImage st = Some url →
    url ≠ "" →
    fetch_reply env url = Resolved (result, blob_type) →
    req = generate_request
            [inline_part up;
             inline_part (mkEncodedImage (payload_of result) blob_type);
             text_part (prompt_or_default
                          (Js.trim (promptInput_value st)))] →
    r = run env (S (S n))
          (generate_settled (generate_reply env req)
             (meanwhile env (S n) (meanwhile env n (setLoading true st)))) →
    SubmitPath env n st (r.1, FetchStarted url :: GenerateCalled req :: r.2).

(** ** Sample inputs *)

(** A page before [main] has run. *)
Definition sample_page : State :=
  mkState false d_unset "" "" d_unset d_unset [] "" false true
    d_unset "" d_unset d_unset "" d_unset d_unset None None false.

Definition sample_image : EncodedImage :=
  mkEncodedImage (Some "AAAA") "image/png".

Definition sample_result : Blob := mkBlob (Some "OUT") (Some "image/png").

(** Two candidates; the first has a text part, then two image parts. *)
Definition sample_response : Response :=
  mkResponse (Some
    [mkCandidate (Some (mkContent (Some
       [text_part "done";
        mkPart (Some sample_result) None;
        mkPart (Some (mkBlob (Some "SECOND") (Some "image/png"))) None])));
     mkCandidate (Some (mkContent (Some
       [mkPart (Some (mkBlob (Some "LATER") (Some "image/jpeg"))) None])))]).

(** The first candidate has text only; the second has an image. *)
Definition sample_text_response : Response :=
  mkResponse (Some
    [mkCandidate (Some (mkContent (Some [text_part "sorry"])));
     mkCandidate (Some (mkContent (Some
       [mkPart (Some sample_result) None])))]).

(** A quiet page whose readers return small data URLs; the URLs of the
    samples are in serialised form, and the [src] getter gives them
    back. *)
Definition sample_env : Env :=
  mkEnv (λ _, "data:image/png;base64,AAAA")
        (λ _, Resolved ("data:image/png;base64,REF", "image/png"))
        (λ _, Resolved sample_response)
        (λ _ st, st)
        (λ written, written).

(** The same, with a service that returns no image in its first
    candidate, and with the user removing the picture while the call is
    pending. *)
Definition sample_text_env : Env :=
  mkEnv (read_reply sample_env) (fetch_reply sample_env)
        (λ _, Resolved sample_text_response)
        (λ _ st, (run sample_env 0 (dispatch RemoveClick st)).1)
        (src_read sample_env).

(** The page after a successful start, then with a picture uploaded,
    then with the third style selected and a blank prompt, or with a
    prompt and no style, or with a blank prompt and no style; and with
    the first style selected. *)
Definition started_page : State :=
  Eval vm_compute in (run sample_env 0 (main (Resolved ()) sample_page)).1.

Definition uploaded_page : State :=
  Eval vm_compute in
    (session sample_env [InputChange (Some [mkFile "image/png"])]
       started_page).1.

Definition styled_page : State :=
  Eval vm_compute in
    (session sample_env [GalleryClick (TargetImg 2); PromptEdit "  "]
       uploaded_page).1.

Definition prompted_page : State :=
  Eval vm_compute in
    (session sample_env [PromptEdit " a cat "] uploaded_page).1.

Definition blank_prompt_page : State :=
  Eval vm_compute in
    (session sample_env [PromptEdit "  "] uploaded_page).1.

Definition selected_page : State :=
  Eval vm_compute in
    (session sample_env [GalleryClick (TargetImg 0)] started_page).1.

(** ** Further predicates *)

(** No byte of [s] is [c]. *)
Fixpoint free_of (c : ascii) (s : string) : bool :=
  match s with
  | EmptyString => true
  | String a r => negb (Ascii.eqb a c) && free_of c r
  end.

(** Between two events the generate button is enabled exactly when a
    subject image is present. *)
Definition button_ok (st : State) : Prop :=
  generateBtn_disabled st = is_null (uploadedImage st).

(** The gallery is well formed and made of the preset images, in order. *)
Definition preset_gallery (st : State) : Prop :=
  gallery_ok st ∧ src <$> referenceGallery st = referenceImages.

(** What the user has put in is in [st'] as in [st]: the picture and its
    preview, the gallery and the selection, and the prompt. *)
Definition same_inputs (st st' : State) : Prop :=
  uploadedImage st' = uploadedImage st ∧
  previewImage_src st' = previewImage_src st ∧
  referenceGallery st' = referenceGallery st ∧
  selectedReferenceImage st' = selectedReferenceImage st ∧
  promptInput_value st' = promptInput_value st.

(** The clicks on the generate button among the events of a session. *)
Definition is_generate_click (ev : Event) : bool :=
  match ev with GenerateClick => true | _ => false end.

(** Further sample environments: a reader that returns a URL without a
    comma; a network on which the fetch and the service call both fail;
    and a page on which, during each suspension, the response handler of
    another submission renders [sample_response]. *)
Definition sample_bare_env : Env :=
  mkEnv (λ _, "data:") (fetch_reply sample_env) (generate_reply sample_env)
        (λ _ st, st) (src_read sample_env).

Definition sample_failing_env : Env :=
  mkEnv (read_reply sample_env)
        (λ _, Rejected OtherValue)
        (λ _, Rejected (ErrorInstance "quota exceeded"))
        (λ _ st, st)
        (src_read sample_env).

(** What the [src] getter makes of a data URL that needs no escaping:
    the URL parser drops the tabs and the line breaks. *)
Fixpoint drop_line_breaks (s : string) : string :=
  match s with
  | EmptyString => EmptyString
  | String c r =>
      if Ascii.eqb c (ascii_of_N 9) || Ascii.eqb c (ascii_of_N 10)
         || Ascii.eqb c (ascii_of_N 13)
      then drop_line_breaks r
      else String c (drop_line_breaks r)
  end.

(** A service whose image data is wrapped over two lines, on a page
    whose getter is the one above. *)
Definition wrapped_result : Blob :=
  mkBlob (Some ("AB" +:+ String (ascii_of_N 10) "CD")) (Some "image/png").

Definition sample_wrapped_env : Env :=
  mkEnv (read_reply sample_env) (fetch_reply sample_env)
        (λ _, Resolved (mkResponse (Some
           [mkCandidate (Some (mkContent (Some
              [mkPart (Some wrapped_result) None])))])))
        (λ _ st, st)
        drop_line_breaks.

(** A service that finds no image for [a cat] and answers anything else
    with [sample_response]; and a page on which, while a call is
    pending, the user drops another picture, changes the prompt and
    clicks the generate button again, that second submission being
    answered before the first. *)
Definition asks_for (txt : string) (req : Request) : bool :=
  existsb (λ p, match text p with
                | Some s => String.eqb s txt
                | None => false
                end) (contents_parts req).

Definition sample_picky_env : Env :=
  mkEnv (read_reply sample_env) (fetch_reply sample_env)
        (λ req, if asks_for "a cat" req then Resolved sample_text_response
                else Resolved sample_response)
        (λ _ st, st)
        (src_read sample_env).

Definition sample_race_env : Env :=
  mkEnv (read_reply sample_env) (fetch_reply sample_env)
        (generate_reply sample_picky_env)
        (λ _ st,
           (session sample_picky_env
              [Drop (Some [mkFile "image/jpeg"]); PromptEdit "a dog";
               GenerateClick] st).1)
        (src_read sample_env).

Definition sample_overlap_env : Env :=
  mkEnv (read_reply sample_env) (fetch_reply sample_env)
        (λ _, Resolved sample_text_response)
        (λ _ st,
           (run sample_env 0
              (generate_settled (Resolved sample_response) st)).1)
        (src_read sample_env).

(** * Properties *)

(** ** Trimming *)

Section Trim.

(** The table of [trim] holds the white space of ECMAScript, all of it
    and nothing else. *)
Lemma white_space_units_complete :
  Js.white_space_units = white_space_strings.
Proof. reflexivity. Qed.

Lemma is_unit_elem w : Js.is_unit w = true ↔ w ∈ Js.white_space_units.
Proof.
  unfold Js.is_unit. rewrite existsb_exists. split.
  - intros (u & Hin & ->%String.eqb_eq). by apply list_elem_of_In.
  - intros Hin. exists w. split; [by apply list_elem_of_In|apply String.eqb_refl].
Qed.

Lemma append_assoc (a b c : string) : (a +:+ b) +:+ c = a +:+ b +:+ c.
Proof.
  induction a as [|x a IH]; [done|].
  change (String x ((a +:+ b) +:+ c) = String x (a +:+ b +:+ c)).
  by rewrite IH.
Qed.

Lemma append_nil_r (a : string) : a +:+ "" = a.
Proof.
  induction a as [|x a IH]; [done|].
  change (String x (a +:+ "") = String x a). by rewrite IH.
Qed.

Lemma Blank_app a b : Blank a → Blank b → Blank (a +:+ b).
Proof.
  induction 1 as [|w s Hw _ IH]; [done|]. intros Hb.
  rewrite append_assoc. constructor; auto.
Qed.

Lemma Blank_one w : w ∈ Js.white_space_units → Blank w.
Proof.
  intros Hw. rewrite <- (append_nil_r w). constructor; [done|constructor].
Qed.

(** Stripping one unit at the front. *)
Lemma all_white_space_unit w s :
  w ∈ Js.white_space_units →
  Js.all_white_space (w +:+ s) = Js.all_white_space s.
Proof.
  intros Hw. unfold Js.white_space_units in Hw.
  repeat (apply elem_of_cons in Hw as [->|Hw]; [reflexivity|]).
  by apply elem_of_nil in Hw.
Qed.

Lemma trimStart_unit w s :
  w ∈ Js.white_space_units → Js.trimStart (w +:+ s) = Js.trimStart s.
Proof.
  intros Hw. unfold Js.white_space_units in Hw.
  repeat (apply elem_of_cons in Hw as [->|Hw]; [reflexivity|]).
  by apply elem_of_nil in Hw.
Qed.

Lemma append_cons a (s t : string) : String a s +:+ t = String a (s +:+ t).
Proof. done. Qed.

Lemma append_nil_l (t : string) : "" +:+ t = t.
Proof. done. Qed.

Lemma unit_not_empty w x : w ∈ Js.white_space_units → w +:+ x ≠ "".
Proof.
  intros Hw. unfold Js.white_space_units in Hw.
  repeat (apply elem_of_cons in Hw as [->|Hw]; [done|]).
  by apply elem_of_nil in Hw.
Qed.

Lemma all_white_space_Blank s : Js.all_white_space s = true → Blank s.
Proof.
  remember (String.length s) as n eqn:Hn.
  assert (String.length s ≤ n) as Hlen by lia. clear Hn.
  revert s Hlen. induction n as [|n IH]; intros s Hlen H.
  { destruct s; [constructor|simpl in Hlen; lia]. }
  destruct s as [|a r1]; [constructor|]. cbn [Js.all_white_space] in H.
  destruct (Js.is_unit (String a "")) eqn:H1.
  { apply is_unit_elem in H1.
    change (String a r1) with (String a "" +:+ r1).
    constructor; [done|]. apply IH; [simpl in Hlen; lia|done]. }
  destruct r1 as [|b r2]; [discriminate|].
  destruct (Js.is_unit (String a (String b ""))) eqn:H2.
  { apply is_unit_elem in H2.
    change (String a (String b r2)) with (String a (String b "") +:+ r2).
    constructor; [done|]. apply IH; [simpl in Hlen; lia|done]. }
  destruct r2 as [|c r3]; [discriminate|].
  apply andb_prop in H as [H3 H]. apply is_unit_elem in H3.
  change (String a (String b (String c r3)))
    with (String a (String b (String c "")) +:+ r3).
  constructor; [done|]. apply IH; [simpl in Hlen; lia|done].
Qed.

Lemma Blank_all_white_space s : Blank s → Js.all_white_space s = true.
Proof.
  induction 1 as [|w s Hw _ IH]; [done|]. by rewrite all_white_space_unit.
Qed.

Lemma trimStart_Blank s : Blank s → Js.trimStart s = "".
Proof.
  induction 1 as [|w s Hw _ IH]; [done|]. by rewrite trimStart_unit.
Qed.

Lemma trimStart_split s : ∃ l, s = l +:+ Js.trimStart s ∧ Blank l.
Proof.
  remember (String.length s) as n eqn:Hn.
  assert (String.length s ≤ n) as Hlen by lia. clear Hn.
  revert s Hlen. induction n as [|n IH]; intros s Hlen.
  { destruct s; [by exists ""; split; [|constructor]|simpl in Hlen; lia]. }
  destruct s as [|a r1]; [by exists ""; split; [|constructor]|].
  cbn [Js.trimStart].
  destruct (Js.is_unit (String a "")) eqn:H1.
  { apply is_unit_elem in H1.
    destruct (IH r1) as (l & Hl & Hb); [simpl in Hlen; lia|].
    exists (String a "" +:+ l). split; [|by constructor].
    rewrite append_assoc, <- Hl. done. }
  destruct r1 as [|b r2]; [by exists ""; split; [|constructor]|].
  destruct (Js.is_unit (String a (String b ""))) eqn:H2.
  { apply is_unit_elem in H2.
    destruct (IH r2) as (l & Hl & Hb); [simpl in Hlen; lia|].
    exists (String a (String b "") +:+ l). split; [|by constructor].
    rewrite append_assoc, <- Hl. done. }
  destruct r2 as [|c r3]; [by exists ""; split; [|constructor]|].
  destruct (Js.is_unit (String a (String b (String c "")))) eqn:H3.
  { apply is_unit_elem in H3.
    destruct (IH r3) as (l & Hl & Hb); [simpl in Hlen; lia|].
    exists (String a (String b (String c "")) +:+ l). split; [|by constructor].
    rewrite append_assoc, <- Hl. done. }
  by exists ""; split; [|constructor].
Qed.

Local Ltac clash H :=
  first [ discriminate H | (vm_compute in H; discriminate H) ].

Lemma trimStart_starts s w x :
  w ∈ Js.white_space_units → Js.trimStart s ≠ w +:+ x.
Proof.
  intros Hw.
  remember (String.length s) as n eqn:Hn.
  assert (String.length s ≤ n) as Hlen by lia. clear Hn.
  revert s Hlen. induction n as [|n IH]; intros s Hlen.
  { destruct s; [|simpl in Hlen; lia].
    intros Heq. symmetry in Heq. by apply unit_not_empty in Heq. }
  destruct s as [|a r1].
  { intros Heq. symmetry in Heq. by apply unit_not_empty in Heq. }
  cbn [Js.trimStart].
  destruct (Js.is_unit (String a "")) eqn:H1;
    [apply IH; simpl in Hlen; lia|].
  destruct r1 as [|b r2].
  { unfold Js.white_space_units in Hw.
    repeat (apply elem_of_cons in Hw as [->|Hw];
            [rewrite ?append_cons, ?append_nil_l; intros Heq;
             simplify_eq; clash H1|]).
    by apply elem_of_nil in Hw. }
  destruct (Js.is_unit (String a (String b ""))) eqn:H2;
    [apply IH; simpl in Hlen; lia|].
  destruct r2 as [|c r3].
  { unfold Js.white_space_units in Hw.
    repeat (apply elem_of_cons in Hw as [->|Hw];
            [rewrite ?append_cons, ?append_nil_l; intros Heq;
             simplify_eq; first [clash H1|clash H2]|]).
    by apply elem_of_nil in Hw. }
  destruct (Js.is_unit (String a (String b (String c "")))) eqn:H3;
    [apply IH; simpl in Hlen; lia|].
  unfold Js.white_space_units in Hw.
  repeat (apply elem_of_cons in Hw as [->|Hw];
          [rewrite ?append_cons, ?append_nil_l; intros Heq;
           simplify_eq; first [clash H1|clash H2|clash H3]|]).
  by apply elem_of_nil in Hw.
Qed.

Lemma trimStart_no_blank_prefix s w q :
  Js.trimStart s = w +:+ q → Blank w → w = "".
Proof.
  intros Heq Hb. destruct Hb as [|u w' Hu _]; [done|].
  rewrite append_assoc in Heq. by apply trimStart_starts in Heq.
Qed.

Lemma trimEnd_split s : ∃ r, s = Js.trimEnd s +:+ r ∧ Blank r.
Proof.
  induction s as [|a r IH]; [by exists ""; split; [|constructor]|].
  cbn [Js.trimEnd].
  destruct (Js.all_white_space (String a r)) eqn:Hall.
  - exists (String a r). split; [done|]. by apply all_white_space_Blank.
  - destruct IH as (r' & Hr & Hb). exists r'. split; [|done].
    rewrite append_cons. by rewrite <- Hr.
Qed.

Lemma trimEnd_no_blank_suffix s p w :
  Js.trimEnd s = p +:+ w → Blank w → w = "".
Proof.
  revert p. induction s as [|a r IH]; intros p.
  { destruct p, w; done. }
  cbn [Js.trimEnd].
  destruct (Js.all_white_space (String a r)) eqn:Hall.
  { destruct p, w; done. }
  destruct p as [|x p].
  - rewrite append_nil_l. intros <- Hb. exfalso.
    destruct (trimEnd_split r) as (r' & Hr & Hb').
    assert (Blank (String a r)) as Hs.
    { rewrite Hr, <- append_cons. by apply Blank_app. }
    apply Blank_all_white_space in Hs. congruence.
  - rewrite append_cons. intros [= <- Heq]. by apply (IH p).
Qed.

Lemma trim_trimmed s : trimmed_of s (Js.trim s).
Proof.
  unfold Js.trim.
  destruct (trimStart_split s) as (l & Hl & Hbl).
  destruct (trimEnd_split (Js.trimStart s)) as (r & Hr & Hbr).
  split; [|split].
  - exists l, r. split; [|done]. by rewrite <- Hr.
  - intros w q Heq Hb.
    apply (trimStart_no_blank_prefix s w (q +:+ r)); [|done].
    by rewrite Hr at 1; rewrite Heq, append_assoc.
  - intros p w. apply trimEnd_no_blank_suffix.
Qed.

Lemma trim_empty_iff s : Js.trim s = "" ↔ Blank s.
Proof.
  split.
  - intros Ht. destruct (trim_trimmed s) as [(l & r & Hs & Hl & Hr) _].
    rewrite Ht, append_nil_l in Hs. rewrite Hs. by apply Blank_app.
  - intros Hb. unfold Js.trim. by rewrite trimStart_Blank.
Qed.

(** *** The trimmed text is unique *)

Lemma append_eq_inv (a b c d : string) :
  a +:+ b = c +:+ d →
  (∃ k, a = c +:+ k ∧ d = k +:+ b) ∨ (∃ k, c = a +:+ k ∧ b = k +:+ d).
Proof.
  revert c. induction a as [|x a IH]; intros c.
  - rewrite append_nil_l. intros ->. right. by exists c.
  - destruct c as [|y c].
    + rewrite append_nil_l. intros <-. left. by exists (String x a).
    + rewrite !append_cons. intros [= -> Heq].
      destruct (IH c Heq) as [(k & -> & ->)|(k & -> & ->)].
      * left. by exists k.
      * right. by exists k.
Qed.

(** No byte of a unit after its first is the first byte of a unit. *)
Lemma inner_not_lead w u p q x y :
  w ∈ Js.white_space_units → u ∈ Js.white_space_units →
  w = p +:+ q → p ≠ "" → q +:+ x = u +:+ y → q = "".
Proof.
  intros Hw Hu Hpq Hp Heq.
  destruct p as [|p0 [|p1 [|p2 p]]]; [done| | |];
    unfold Js.white_space_units in Hw;
    repeat (apply elem_of_cons in Hw as [->|Hw];
            [rewrite ?append_cons, ?append_nil_l in Hpq; simplify_eq;
             try reflexivity;
             try (by destruct p, q);
             unfold Js.white_space_units in Hu;
             repeat (apply elem_of_cons in Hu as [->|Hu];
                     [rewrite ?append_cons, ?append_nil_l in Heq;
                      discriminate Heq|]);
             by apply elem_of_nil in Hu|]);
    by apply elem_of_nil in Hw.
Qed.

Lemma Blank_inv s :
  Blank s → s ≠ "" → ∃ u r, u ∈ Js.white_space_units ∧ s = u +:+ r ∧ Blank r.
Proof. intros [|u r Hu Hr] Hne; [done|]. by exists u, r. Qed.

(** A unit at the front of [t +:+ r], for [t] not empty and [r] blank,
    lies within [t]. *)
Lemma unit_within t r w x :
  t ≠ "" → Blank r → w ∈ Js.white_space_units →
  t +:+ r = w +:+ x → ∃ k, t = w +:+ k ∧ x = k +:+ r.
Proof.
  intros Ht Hr Hw Heq.
  destruct (append_eq_inv _ _ _ _ Heq) as [(k & -> & ->)|(k & -> & ->)].
  - by exists k.
  - destruct k as [|c k].
    + exists "". by rewrite !append_nil_r.
    + destruct (Blank_inv _ Hr) as (u & r' & Hu & Hur & _).
      { by rewrite append_cons. }
      by pose proof (inner_not_lead _ _ _ _ _ _ Hw Hu eq_refl Ht Hur).
Qed.

Lemma trimStart_fixed s :
  (∀ w x, w ∈ Js.white_space_units → s ≠ w +:+ x) → Js.trimStart s = s.
Proof.
  intros Hs. destruct (trimStart_split s) as (l & Hl & Hb).
  destruct Hb as [|w l' Hw _]; [by rewrite append_nil_l in Hl|].
  rewrite append_assoc in Hl. by apply Hs in Hl.
Qed.

Lemma trimStart_app_blank l s : Blank l → Js.trimStart (l +:+ s) = Js.trimStart s.
Proof.
  induction 1 as [|w l Hw _ IH]; [done|].
  by rewrite append_assoc, trimStart_unit.
Qed.

Lemma trimStart_bare t r :
  t ≠ "" → (∀ w q, t = w +:+ q → Blank w → w = "") → Blank r →
  Js.trimStart (t +:+ r) = t +:+ r.
Proof.
  intros Ht Hpre Hr. apply trimStart_fixed. intros w x Hw Heq.
  destruct (unit_within _ _ _ _ Ht Hr Hw Heq) as (k & Hk & _).
  apply Hpre in Hk; [|by apply Blank_one]. subst w.
  by apply (unit_not_empty "" "") in Hw.
Qed.

Lemma length_append (a b : string) :
  String.length (a +:+ b) = String.length a + String.length b.
Proof.
  induction a as [|x a IH]; [done|]. rewrite append_cons. simpl. by rewrite IH.
Qed.

Lemma Blank_app_inv t r : Blank (t +:+ r) → Blank r → Blank t.
Proof.
  remember (String.length t) as n eqn:Hn.
  assert (String.length t ≤ n) as Hlen by lia. clear Hn.
  revert t Hlen. induction n as [|n IH]; intros t Hlen Htr Hr.
  { destruct t; [constructor|simpl in Hlen; lia]. }
  destruct t as [|a t]; [constructor|].
  destruct (Blank_inv _ Htr) as (w & x & Hw & Heq & Hx); [done|].
  destruct (unit_within _ _ _ _ (ltac:(done) : String a t ≠ "") Hr Hw Heq)
    as (k & Hk & ->).
  rewrite Hk. constructor; [done|]. apply IH; [|done..].
  assert (String.length (String a t) = String.length w + String.length k)
    as Hl by (rewrite Hk; apply length_append).
  assert (0 < String.length w).
  { destruct w; [by apply (unit_not_empty "" "") in Hw|simpl; lia]. }
  simpl in Hlen, Hl. lia.
Qed.

Lemma trimEnd_bare t r :
  (∀ p w, t = p +:+ w → Blank w → w = "") → Blank r →
  Js.trimEnd (t +:+ r) = t.
Proof.
  intros Hsuf Hr. induction t as [|a t IH].
  - rewrite append_nil_l. destruct r as [|b r]; [done|].
    cbn [Js.trimEnd]. by rewrite (Blank_all_white_space _ Hr).
  - rewrite append_cons. cbn [Js.trimEnd]. rewrite <- append_cons.
    destruct (Js.all_white_space (String a t +:+ r)) eqn:Hall.
    + apply all_white_space_Blank in Hall.
      apply (Blank_app_inv (String a t) r) in Hall; [|done].
      by apply (Hsuf "") in Hall.
    + rewrite IH; [done|]. intros p w -> Hw.
      by apply (Hsuf (String a p)).
Qed.

(** The trimmed text is determined by the string: it is what [trim]
    returns. *)
Lemma trimmed_of_unique s t : trimmed_of s t → t = Js.trim s.
Proof.
  intros [(l & r & -> & Hl & Hr) [Hpre Hsuf]].
  unfold Js.trim. rewrite trimStart_app_blank by done.
  destruct t as [|a t].
  - rewrite append_nil_l, trimStart_Blank by done. done.
  - rewrite trimStart_bare by done. by rewrite trimEnd_bare.
Qed.

Lemma truthy_false s : Js.truthy s = false ↔ s = "".
Proof. by destruct s. Qed.

Lemma truthy_true s : Js.truthy s = true ↔ s ≠ "".
Proof. by destruct s. Qed.

End Trim.

(** ** The submit handler, path by path *)

Section Submit.

Context (env : Env) (n : nat).

Lemma run_generate_catch error st :
  run env n (generate_catch error st) =
  (setLoading false (displayError (shown_message error) st),
   [Out (console_error error)]).
Proof. done. Qed.

Lemma run_settled_rejected error st :
  run env n (generate_settled (Rejected error) st) =
  (setLoading false (displayError (shown_message error) st),
   [Out (console_error error)]).
Proof. apply run_generate_catch. Qed.

Lemma run_settled_image response image st :
  imagePart response = Some image →
  run env n (generate_settled (Resolved response) st) =
  (setLoading false
     (set_downloadBtn_display d_flex
        (set_resultImage_display d_block
           (set_resultImage_src
              (data_url (blob_mimeType image) (data image)) st))),
   []).
Proof. intros H. unfold generate_settled. by rewrite H. Qed.

Lemma run_settled_empty response st :
  imagePart response = None →
  run env n (generate_settled (Resolved response) st) =
  (setLoading false
     (displayError
        "No image was generated. Please try a different prompt." st),
   []).
Proof. intros H. unfold generate_settled. by rewrite H. Qed.

(** Once the service call has settled the handler neither suspends nor
    calls the network again, and it ends in [setLoading(false)]. *)
Lemma run_settled_shape o st :
  let r := run env n (generate_settled o st) in
  (∃ st', r.1 = setLoading false st' ∧ uploadedImage st' = uploadedImage st)
  ∧ requests r.2 = [] ∧ network_calls r.2 = [] ∧ alerts r.2 = [].
Proof.
  intros r. subst r.
  destruct o as [response|error].
  - destruct (imagePart response) as [image|] eqn:Hi.
    + rewrite (run_settled_image _ _ _ Hi). cbn [fst snd].
      split; [by eexists|done].
    + rewrite (run_settled_empty _ _ Hi). cbn [fst snd].
      split; [by eexists|done].
  - rewrite run_settled_rejected. cbn [fst snd].
    split; [by eexists|done].
Qed.

Local Ltac path_side Hsel Hp :=
  unfold prompt_or_default; eauto;
  first [ (rewrite Hsel; done)
        | (apply truthy_true; done)
        | (apply truthy_false; done)
        | (rewrite Hp; done)
        | done ].

Lemma submit_path st :
  SubmitPath env n st (run env n (handleGenerateClick st)).
Proof.
  unfold handleGenerateClick.
  destruct (uploadedImage st) as [up|] eqn:Hup; [|by constructor].
  destruct (Js.truthy (Js.trim (promptInput_value st))) eqn:Hp;
    destruct (selectedReferenceImage st) as [[|c url']|] eqn:Hsel; simpl;
    rewrite ?Hsel; simpl;
    try destruct (fetch_reply env (String c url'))
      as [[result ty]|error] eqn:Hf; simpl; rewrite ?run_generate_catch.
  - eapply (path_prompt_only _ _ _ up); path_side Hsel Hp.
  - eapply (path_reference _ _ _ up); path_side Hsel Hp.
  - eapply (path_reference_rejected _ _ _ up); path_side Hsel Hp.
  - eapply (path_prompt_only _ _ _ up); path_side Hsel Hp.
  - eapply path_no_style; path_side Hsel Hp.
  - eapply (path_reference _ _ _ up); path_side Hsel Hp.
  - eapply (path_reference_rejected _ _ _ up); path_side Hsel Hp.
  - eapply path_no_style; path_side Hsel Hp.
Qed.

End Submit.

(** ** Submission: validation, request parts and text *)

Section SubmitClaims.

Context (env : Env) (n : nat).

Lemma sane_truthy st :
  sane_selection st →
  Js.truthy_or_null (selectedReferenceImage st)
  = negb (is_null (selectedReferenceImage st)).
Proof.
  unfold sane_selection.
  by destruct (selectedReferenceImage st) as [[|c u]|].
Qed.

Lemma settled_no_request o st req m :
  GenerateCalled req ∉ (run env m (generate_settled o st)).2.
Proof.
  destruct (run_settled_shape env m o st) as (_ & Hreq & _).
  intros Hin.
  assert (req ∈ requests (run env m (generate_settled o st)).2) as Hr.
  { apply list_elem_of_omap. by exists (GenerateCalled req). }
  rewrite Hreq in Hr. by apply elem_of_nil in Hr.
Qed.

(** The trace of a submission is a function of the uploaded image, the
    selection and the trimmed prompt. *)
Lemma settled_trace o st st' m m' :
  (run env m (generate_settled o st)).2
  = (run env m' (generate_settled o st')).2.
Proof.
  destruct o as [response|error]; [|by rewrite !run_settled_rejected].
  destruct (imagePart response) as [image|] eqn:Hi.
  - by rewrite !(run_settled_image _ _ _ _ _ Hi).
  - by rewrite !(run_settled_empty _ _ _ _ Hi).
Qed.

Lemma submit_trace_ext st st' :
  uploadedImage st = uploadedImage st' →
  selectedReferenceImage st = selectedReferenceImage st' →
  Js.trim (promptInput_value st) = Js.trim (promptInput_value st') →
  (run env n (handleGenerateClick st)).2
  = (run env n (handleGenerateClick st')).2.
Proof.
  intros Hup Hsel Hp.
  generalize (submit_path env n st'). generalize (submit_path env n st).
  generalize (run env n (handleGenerateClick st)).
  generalize (run env n (handleGenerateClick st')).
  intros r' r H H'.
  destruct H; destruct H'; rewrite ?Hup, ?Hsel, ?Hp in *; simplify_eq;
    try done;
    try match goal with
        | H1 : selectedReferenceImage ?s = Some ?u,
          H2 : Js.truthy_or_null (selectedReferenceImage ?s) = false |- _ =>
            rewrite H1 in H2; destruct u; [done|discriminate H2]
        end;
    try match goal with
        | H1 : fetch_reply env ?u = _, H2 : fetch_reply env ?u = _ |- _ =>
            rewrite H1 in H2; simplify_eq
        end;
    cbn [snd];
    first [ done
          | f_equal; apply settled_trace
          | do 2 f_equal; apply settled_trace ].
Qed.

Local Ltac on_paths st :=
  generalize (submit_path env n st);
  generalize (run env n (handleGenerateClick st));
  let r := fresh "r" in let H := fresh "Hpath" in
  intros r H; destruct H; simplify_eq.

Local Ltac selection_clash :=
  match goal with
  | Hs : sane_selection ?s,
    H : Js.truthy_or_null (selectedReferenceImage ?s) = false |- _ =>
      rewrite (sane_truthy _ Hs) in H;
      destruct (selectedReferenceImage s) eqn:?; [discriminate H|]
  end.

Lemma requests_generate req t :
  requests (GenerateCalled req :: t) = req :: requests t.
Proof. done. Qed.

Lemma requests_fetch url t :
  requests (FetchStarted url :: t) = requests t.
Proof. done. Qed.

Lemma trim_bare s : bare (Js.trim s).
Proof. apply trim_trimmed. Qed.

Lemma trim_not_empty s : Js.trim s ≠ "" ↔ ¬ Blank s.
Proof. by rewrite trim_empty_iff. Qed.

(** The text a submission sends, by the prompt as typed: the prompt less
    the white space around it, or the default instruction when a
    reference image is selected and the prompt is blank. *)
Lemma sent_text_cases st :
  selectedReferenceImage st ≠ None ∨ ¬ Blank (promptInput_value st) →
  let txt := if Js.truthy (Js.trim (promptInput_value st))
             then Js.trim (promptInput_value st)
             else "Apply the style of the second image to the first image." in
  txt ≠ "" ∧
  (trimmed_of (promptInput_value st) txt ∧ ¬ Blank (promptInput_value st) ∨
   selectedReferenceImage st ≠ None ∧ Blank (promptInput_value st) ∧
   txt = "Apply the style of the second image to the first image.").
Proof.
  intros Hvalid.
  destruct (Js.truthy (Js.trim (promptInput_value st))) eqn:Hp; cbn zeta.
  - apply truthy_true in Hp. split; [done|]. left.
    split; [apply trim_trimmed|by apply trim_not_empty].
  - apply truthy_false, trim_empty_iff in Hp. split; [done|]. right.
    by destruct Hvalid.
Qed.

(** C1, with the prompt judged after trimming: a submission with a
    subject image and with a reference image or a prompt that is not blank
    sends, without a reference image, one request of exactly two parts,
    the subject image then the text; with a reference image that could
    be fetched, one request of exactly three parts, the subject image,
    the reference image, then the text; and no request when the
    reference image could not be fetched.  The text is the prompt less
    the white space around it, or the default instruction when a
    reference image is selected and the prompt is blank. *)
Theorem submit_request_parts st up :
  uploadedImage st = Some up →
  sane_selection st →
  selectedReferenceImage st ≠ None ∨ ¬ Blank (promptInput_value st) →
  ∃ txt,
    txt ≠ "" ∧
    (trimmed_of (promptInput_value st) txt ∧ ¬ Blank (promptInput_value st) ∨
     selectedReferenceImage st ≠ None ∧ Blank (promptInput_value st) ∧
     txt = "Apply the style of the second image to the first image.") ∧
    match selectedReferenceImage st with
    | None =>
        requests (run env n (handleGenerateClick st)).2 =
        [mkRequest "gemini-2.5-flash-image-preview"
           [mkPart (Some (mkBlob (base64 up) (Some (mimeType up)))) None;
            mkPart None (Some txt)]
           [IMAGE; TEXT]]
    | Some url =>
        match fetch_reply env url with
        | Resolved (result, blob_type) =>
            requests (run env n (handleGenerateClick st)).2 =
            [mkRequest "gemini-2.5-flash-image-preview"
               [mkPart (Some (mkBlob (base64 up) (Some (mimeType up)))) None;
                mkPart (Some (mkBlob (Js.split "," result !! 1)
                                (Some blob_type))) None;
                mkPart None (Some txt)]
               [IMAGE; TEXT]]
        | Rejected _ =>
            requests (run env n (handleGenerateClick st)).2 = []
        end
    end.
Proof.
  intros Hup Hsane Hvalid.
  destruct (sent_text_cases st Hvalid) as [Hne Hcases].
  eexists. split; [exact Hne|]. split; [exact Hcases|]. clear Hne Hcases.
  on_paths st; try selection_clash.
  - apply trim_empty_iff in H1. destruct Hvalid as [Hv|Hv]; done.
  - rewrite (proj2 (truthy_true _)) by done.
    match goal with
    | |- context [run env ?m (generate_settled ?o ?s)] =>
        destruct (run_settled_shape env m o s) as (_ & Hreq & _)
    end.
    cbn [snd]. by rewrite requests_generate, Hreq.
  - rewrite H0, H2. done.
  - rewrite H0, H2.
    match goal with
    | |- context [run env ?m (generate_settled ?o ?s)] =>
        destruct (run_settled_shape env m o s) as (_ & Hreq & _)
    end.
    cbn [snd]. rewrite requests_fetch, requests_generate, Hreq.
    unfold prompt_or_default.
    by destruct (Js.truthy (Js.trim (promptInput_value st))).
Qed.

Lemma network_calls_generate req t :
  network_calls (GenerateCalled req :: t) =
  GenerateCalled req :: network_calls t.
Proof. done. Qed.

Lemma network_calls_fetch url t :
  network_calls (FetchStarted url :: t) =
  FetchStarted url :: network_calls t.
Proof. done. Qed.

(** C2, with the prompt taken after trimming: the submit handler calls
    the network exactly when a subject image is present and a reference
    image is selected or the trimmed prompt is not empty; otherwise it
    shows one validation message, calls nothing and leaves the whole
    state as it was. *)
Theorem submit_validation st :
  sane_selection st →
  (network_calls (run env n (handleGenerateClick st)).2 ≠ [] ↔
   valid_submission st) ∧
  (uploadedImage st = None ∨
   (selectedReferenceImage st = None ∧
    Js.trim (promptInput_value st) = "") →
   ∃ msg, run env n (handleGenerateClick st) = (st, [Out (alert msg)])).
Proof.
  intros Hsane. unfold valid_submission.
  on_paths st; try selection_clash; cbn [fst snd];
    rewrite ?network_calls_generate, ?network_calls_fetch.
  - split; [|eauto]. split; [done|]. by intros [? _].
  - split; [|eauto]. split; [done|]. intros [_ [?|?]]; done.
  - split.
    + split; [|done]. intros _. split; [congruence|by right].
    + intros [?|[_ ?]]; congruence.
  - split.
    + split; [|done]. intros _. split; [congruence|left; congruence].
    + intros [?|[? _]]; congruence.
  - split.
    + split; [|done]. intros _. split; [congruence|left; congruence].
    + intros [?|[? _]]; congruence.
Qed.

(** C3, with the prompt judged and carried after trimming: the text part
    of a request is the last part and the only one with text, and its
    text is not empty; it is the default instruction when a reference
    image is selected and the prompt is blank, and the prompt less the
    white space around it when the prompt is not blank. *)
Theorem submit_request_text st req :
  sane_selection st →
  req ∈ requests (run env n (handleGenerateClick st)).2 →
  ∃ images txt,
    contents_parts req = images ++ [mkPart None (Some txt)] ∧
    Forall (λ p, text p = None) images ∧
    txt ≠ "" ∧
    (selectedReferenceImage st ≠ None → Blank (promptInput_value st) →
     txt = "Apply the style of the second image to the first image.") ∧
    (¬ Blank (promptInput_value st) →
     trimmed_of (promptInput_value st) txt).
Proof.
  intros Hsane. 
  on_paths st; try selection_clash; cbn [snd];
    rewrite ?requests_fetch, ?requests_generate;
    try match goal with
        | |- context [run env ?m (generate_settled ?o ?s)] =>
            destruct (run_settled_shape env m o s) as (_ & Hreq & _);
            rewrite Hreq
        end;
    intros Hin; try (by apply elem_of_nil in Hin);
    apply list_elem_of_singleton in Hin; subst req.
  - exists [inline_part up], (Js.trim (promptInput_value st)).
    split; [done|]. split; [by repeat constructor|]. split; [done|].
    split.
    + intros _ Hb%trim_empty_iff. done.
    + intros _. apply trim_trimmed.
  - eexists [inline_part up; inline_part _], _.
    split; [done|]. split; [by repeat constructor|].
    unfold prompt_or_default.
    destruct (Js.truthy (Js.trim (promptInput_value st))) eqn:Hp.
    + apply truthy_true in Hp. split; [done|]. split.
      * intros _ Hb%trim_empty_iff. done.
      * intros _. apply trim_trimmed.
    + apply truthy_false, trim_empty_iff in Hp. split; [done|]. split; done.
Qed.

Lemma setLoading_false_loader st :
  loader_display (setLoading false st) = d_none.
Proof. done. Qed.

Lemma setLoading_false_button st :
  generateBtn_disabled (setLoading false st)
  = is_null (uploadedImage (setLoading false st)).
Proof. done. Qed.

(** C6: a submission that passed validation ends, whatever the fetch
    and the service answer and whatever else happened meanwhile, with
    the loader hidden and the generate button disabled exactly when no
    subject image is present at that time. *)
Theorem submit_clears_busy st :
  sane_selection st →
  valid_submission st →
  loader_display (run env n (handleGenerateClick st)).1 = d_none ∧
  generateBtn_disabled (run env n (handleGenerateClick st)).1
  = is_null (uploadedImage (run env n (handleGenerateClick st)).1).
Proof.
  intros Hsane [Hup Hstyle].
  on_paths st; try selection_clash; try done;
    try (destruct Hstyle; done); cbn [fst];
    try match goal with
        | |- context [run env ?m (generate_settled ?o ?s)] =>
            destruct (run_settled_shape env m o s) as ((s' & -> & _) & _)
        end;
    split; first [apply setLoading_false_loader
                 |apply setLoading_false_button].
Qed.

Lemma default_instruction_bare :
  bare "Apply the style of the second image to the first image.".
Proof.
  exact (trim_bare "Apply the style of the second image to the first image.").
Qed.

(** C10: the handler only ever uses the prompt less the white space
    around it.  A prompt made of white space gives the same trace as the
    empty prompt (the same validation message, or the same fetch and
    the same request with the default instruction); a prompt that is
    not blank passes validation whenever a subject image is present;
    and every text sent to the service neither starts nor ends with
    white space, being the prompt less the white space around it, or,
    for a blank prompt, the default instruction. *)
Theorem submit_trims_prompt st blank :
  Blank blank →
  (run env n (handleGenerateClick (set_promptInput_value blank st))).2
  = (run env n (handleGenerateClick (set_promptInput_value "" st))).2
  ∧ (uploadedImage st ≠ None → ¬ Blank (promptInput_value st) →
     network_calls (run env n (handleGenerateClick st)).2 ≠ [])
  ∧ ∀ req part s,
      req ∈ requests (run env n (handleGenerateClick st)).2 →
      part ∈ contents_parts req →
      text part = Some s →
      bare s ∧
      (trimmed_of (promptInput_value st) s ∨
       Blank (promptInput_value st) ∧
       s = "Apply the style of the second image to the first image.").
Proof.
  intros Hblank. split; [|split].
  - apply submit_trace_ext; try done.
    unfold set_promptInput_value. cbn [promptInput_value].
    apply trim_empty_iff in Hblank. by rewrite Hblank.
  - intros Hup Hp.
    on_paths st; cbn [snd];
      rewrite ?network_calls_generate, ?network_calls_fetch; try done.
    by apply trim_empty_iff in H1.
  - intros req part s.
    on_paths st; cbn [snd];
      rewrite ?requests_fetch, ?requests_generate;
      try match goal with
          | |- context [run env ?m (generate_settled ?o ?s)] =>
              destruct (run_settled_shape env m o s) as (_ & Hreq & _);
              rewrite Hreq
          end;
      intros Hin; try (by apply elem_of_nil in Hin);
      apply list_elem_of_singleton in Hin; subst req;
      cbn [contents_parts generate_request]; intros Hpart Htext;
      repeat (apply elem_of_cons in Hpart as [->|Hpart]);
      try (by apply elem_of_nil in Hpart); simplify_eq/=.
    + split; [apply trim_bare|]. left. apply trim_trimmed.
    + unfold prompt_or_default.
      destruct (Js.truthy (Js.trim (promptInput_value st))) eqn:Hp.
      * split; [apply trim_bare|]. left. apply trim_trimmed.
      * apply truthy_false, trim_empty_iff in Hp.
        split; [apply default_instruction_bare|]. by right.
Qed.

End SubmitClaims.

(** ** What the rest of the page leaves alone *)

Section Frame.

Lemma run_upload_quiet env file st :
  quiet env →
  same_result st (run env 0 (handleImageUpload file st)).1.
Proof.
  intros Hq. unfold handleImageUpload.
  destruct (negb _); [done|].
  cbn [run fileToGenerativePart fst]. rewrite Hq. done.
Qed.

Lemma select_same_result target st :
  same_result st (handleReferenceImageSelect target st).
Proof.
  unfold handleReferenceImageSelect.
  destruct target as [i|]; [|done].
  destruct (referenceGallery st !! i); [|done].
  by case_bool_decide.
Qed.

Lemma user_step_same_result st st' :
  user_step st st' → same_result st st'.
Proof.
  intros (ev & env & Hev & Hq & ->).
  destruct ev; unfold dispatch;
    try (destruct (promptInput_disabled st); done);
    destruct (listening st); try done; cbn [listener].
  - destruct files as [[|file ?]|]; try done. by apply run_upload_quiet.
  - destruct files as [[|file ?]|]; try done.
    cbn [upload_first]. 
    by destruct (run_upload_quiet env file (set_uploadArea_dragover false st) Hq)
      as (? & ? & ? & ? & ?).
  - apply select_same_result.
Qed.

Lemma user_steps_same_result st st' :
  rtc user_step st st' → same_result st st'.
Proof.
  induction 1 as [st|st st1 st2 H1 _ IH]; [done|].
  apply user_step_same_result in H1.
  destruct H1 as (? & ? & ? & ? & ?), IH as (? & ? & ? & ? & ?).
  repeat split; congruence.
Qed.

End Frame.

(** ** The response *)

Section Response.

Context (env : Env) (n : nat).


Lemma find_no_image ps :
  Forall (λ q, inlineData q = None) ps →
  List.find (λ part, negb (is_null (inlineData part))) ps = None.
Proof.
  induction 1 as [|q ps Hq _ IH]; simpl; [done|]. by rewrite Hq.
Qed.

Lemma imagePart_empty response :
  Forall (λ p, inlineData p = None) (first_candidate_parts response) →
  imagePart response = None.
Proof.
  unfold first_candidate_parts, imagePart.
  destruct (candidates response) as [[|c cs]|]; simpl; try done.
  destruct (content c) as [[[ps|]]|]; simpl; try done.
  intros H. by rewrite find_no_image.
Qed.

(** A submission that reached the service ends as the response handler
    leaves it, started in a state whose result area is, in a calm
    environment, the one [setLoading(true)] made. *)
Lemma submit_response st req :
  GenerateCalled req ∈ (run env n (handleGenerateClick st)).2 →
  ∃ m st1,
    (run env n (handleGenerateClick st)).1
    = (run env m (generate_settled (generate_reply env req) st1)).1 ∧
    (calm env → same_result (setLoading true st) st1).
Proof.
  generalize (submit_path env n st).
  generalize (run env n (handleGenerateClick st)).
  intros r H; destruct H; simplify_eq; cbn [fst snd]; intros Hin;
    repeat (apply elem_of_cons in Hin as [Hin|Hin]; simplify_eq);
    try (by apply elem_of_nil in Hin);
    try (by apply settled_no_request in Hin).
  - eexists _, _. split; [done|]. intros Hc.
    apply user_steps_same_result, Hc.
  - eexists _, _. split; [done|]. intros Hc.
    apply user_steps_same_result. etrans; apply Hc.
Qed.

(** X20: a response without an image is reported: when the service
    answers and no part of the first candidate carries image data, the
    error line shows the empty-result message and the loader is hidden;
    and in a calm environment the result image and the download button
    stay hidden, as [setLoading(true)] left them. *)
Theorem empty_result_reported st req response :
  GenerateCalled req ∈ (run env n (handleGenerateClick st)).2 →
  generate_reply env req = Resolved response →
  Forall (λ p, inlineData p = None) (first_candidate_parts response) →
  errorMessage_display (run env n (handleGenerateClick st)).1 = d_block ∧
  errorMessage_textContent (run env n (handleGenerateClick st)).1
  = "Error: No image was generated. Please try a different prompt." ∧
  loader_display (run env n (handleGenerateClick st)).1 = d_none ∧
  (calm env →
   resultImage_display (run env n (handleGenerateClick st)).1 = d_none ∧
   downloadBtn_display (run env n (handleGenerateClick st)).1 = d_none).
Proof.
  intros Hin Hreply Hempty.
  destruct (submit_response st req Hin) as (m & st1 & -> & Hsame).
  rewrite Hreply, (run_settled_empty _ _ _ _ (imagePart_empty _ Hempty)).
  cbn [fst]. repeat split; try done.
  - by destruct (Hsame H) as (_ & Himg & _).
  - by destruct (Hsame H) as (_ & _ & Hbtn & _).
Qed.


End Response.

(** ** The reference gallery *)

Section Gallery.

Lemma remove_selected_id img :
  selected img = false → remove_selected img = img.
Proof. destruct img as [u b]; simpl. by intros ->. Qed.

Lemma remove_selected_all (g : list Img) :
  (∀ img, img ∈ g → selected img = false) → remove_selected <$> g = g.
Proof.
  induction g as [|a g IH]; [done|]. intros H. simpl. f_equal.
  - apply remove_selected_id, H. left.
  - apply IH. intros img Hin. apply H. by right.
Qed.

(** When the selected images all have one source and sources are
    distinct, clearing the first selected image clears them all. *)
Lemma deselect_previous_all (g : list Img) u :
  NoDup (src <$> g) →
  (∀ img, img ∈ g → selected img = true → src img = u) →
  deselect_previous g = remove_selected <$> g.
Proof.
  induction g as [|a g IH]; [done|].
  rewrite fmap_cons, NoDup_cons. intros [Ha Hnd] Hu. simpl.
  destruct (selected a) eqn:Hsa.
  - f_equal. symmetry. apply remove_selected_all.
    intros img Hin. destruct (selected img) eqn:Hs; [|done].
    exfalso. apply Ha. apply list_elem_of_fmap. exists img. split; [|done].
    rewrite (Hu a), (Hu img); try done; [by right|left].
  - f_equal; [by rewrite remove_selected_id|].
    apply IH; [done|]. intros img Hin. apply Hu. by right.
Qed.

Lemma deselect_previous_ok st :
  gallery_ok st →
  deselect_previous (referenceGallery st)
  = remove_selected <$> referenceGallery st.
Proof.
  intros (Hnd & _ & Hsel & _).
  apply (deselect_previous_all _
           (default "" (selectedReferenceImage st))); [done|].
  intros img Hin Hs. apply Hsel in Hs; [|done]. by rewrite Hs.
Qed.

Lemma src_remove_selected (g : list Img) : src <$> (remove_selected <$> g) = src <$> g.
Proof. rewrite <- list_fmap_compose. by apply list_fmap_ext. Qed.

Lemma src_add_selected i (g : list Img) : src <$> alter add_selected i g = src <$> g.
Proof.
  rewrite (list_fmap_alter src add_selected id); [by rewrite list_alter_id|].
  by apply Forall_forall.
Qed.

(** A click on a gallery image, under [gallery_ok]. *)
Lemma select_unfold st i target :
  gallery_ok st →
  referenceGallery st !! i = Some target →
  handleReferenceImageSelect (TargetImg i) st =
  if bool_decide (selectedReferenceImage st = Some (src target)) then
    set_selectedReferenceImage None
      (set_referenceGallery (remove_selected <$> referenceGallery st) st)
  else
    set_selectedReferenceImage (Some (src target))
      (set_referenceGallery
         (alter add_selected i (remove_selected <$> referenceGallery st))
         st).
Proof.
  intros Hok Hi. unfold handleReferenceImageSelect.
  rewrite Hi, (deselect_previous_ok _ Hok). reflexivity.
Qed.

Lemma lookup_selected_gallery (g : list Img) i j target img :
  g !! i = Some target →
  alter add_selected i (remove_selected <$> g) !! j = Some img →
  (j = i ∧ img = add_selected target) ∨
  (j ≠ i ∧ ∃ old, g !! j = Some old ∧ img = remove_selected old).
Proof.
  intros Hi. destruct (decide (j = i)) as [->|Hne].
  - rewrite list_lookup_alter_eq, list_lookup_fmap, Hi. simpl.
    intros [= <-]. by left.
  - rewrite list_lookup_alter_ne, list_lookup_fmap by done.
    destruct (g !! j) as [old|]; simpl; [|done].
    intros [= <-]. right. eauto.
Qed.

Lemma select_gallery_ok target st :
  gallery_ok st → gallery_ok (handleReferenceImageSelect target st).
Proof.
  intros Hok. destruct target as [i|]; [|done].
  destruct (referenceGallery st !! i) as [target|] eqn:Hi;
    [|by unfold handleReferenceImageSelect; rewrite Hi].
  rewrite (select_unfold _ _ _ Hok Hi).
  destruct Hok as (Hnd & Hne & Hsel & Hin).
  case_bool_decide as Hcur; unfold gallery_ok; simpl.
  - rewrite src_remove_selected.
    split; [done|]. split; [|split; [|done]].
    + intros img (old & -> & Hold)%list_elem_of_fmap. exact (Hne old Hold).
    + by intros img (old & -> & Hold)%list_elem_of_fmap.
  - rewrite src_add_selected, src_remove_selected.
    split; [done|]. split; [|split].
    + intros img (j & Hj)%list_elem_of_lookup.
      destruct (lookup_selected_gallery _ _ _ _ _ Hi Hj)
        as [[-> ->]|[_ (old & Hold & ->)]]; simpl;
        eauto using list_elem_of_lookup_2.
    + intros img (j & Hj)%list_elem_of_lookup.
      destruct (lookup_selected_gallery _ _ _ _ _ Hi Hj)
        as [[-> ->]|[Hji (old & Hold & ->)]]; simpl; [done|].
      split; [done|]. intros [= Heq]. exfalso. apply Hji.
      apply (NoDup_lookup _ _ _ (src old) Hnd);
        rewrite list_lookup_fmap; [by rewrite Hold|by rewrite Hi, <- Heq].
    + intros url [= <-]. apply list_elem_of_fmap.
      exists target. eauto using list_elem_of_lookup_2.
Qed.

Lemma referenceImages_distinct : NoDup referenceImages.
Proof. apply (bool_decide_unpack _). by vm_compute. Qed.

Lemma referenceImages_not_empty : Forall (λ u, u ≠ "") referenceImages.
Proof. apply (bool_decide_unpack _). by vm_compute. Qed.

(** The gallery [initializeGallery] builds in an empty container, with
    nothing selected, is well formed. *)
Lemma initializeGallery_ok st :
  referenceGallery st = [] →
  selectedReferenceImage st = None →
  gallery_ok (initializeGallery st).
Proof.
  intros Hg Hs. unfold gallery_ok, initializeGallery.
  cbn [referenceGallery selectedReferenceImage set_referenceGallery].
  rewrite Hg, Hs, app_nil_l, <- list_fmap_compose.
  rewrite (list_fmap_ext _ id referenceImages), list_fmap_id by done.
  split; [apply referenceImages_distinct|]. split; [|split; [|done]].
  - intros img (u & -> & Hu)%list_elem_of_fmap. simpl.
    revert u Hu. apply Forall_forall, referenceImages_not_empty.
  - by intros img (u & -> & Hu)%list_elem_of_fmap.
Qed.

(** C4: under [gallery_ok], a click on the selected image clears the
    selection and leaves no image marked, and a second click selects it
    again; a click on another image makes it the selection and the only
    marked image, and a second click on that image clears the selection
    again. *)
Theorem reference_toggle st i target :
  gallery_ok st →
  referenceGallery st !! i = Some target →
  (selectedReferenceImage st = Some (src target) →
   selectedReferenceImage (handleReferenceImageSelect (TargetImg i) st)
   = None ∧
   (∀ img,
      img ∈ referenceGallery (handleReferenceImageSelect (TargetImg i) st) →
      selected img = false) ∧
   selectedReferenceImage
     (handleReferenceImageSelect (TargetImg i)
        (handleReferenceImageSelect (TargetImg i) st))
   = Some (src target)) ∧
  (selectedReferenceImage st ≠ Some (src target) →
   selectedReferenceImage (handleReferenceImageSelect (TargetImg i) st)
   = Some (src target) ∧
   (∀ j img,
      referenceGallery (handleReferenceImageSelect (TargetImg i) st) !! j
      = Some img →
      selected img = true ↔ j = i) ∧
   selectedReferenceImage
     (handleReferenceImageSelect (TargetImg i)
        (handleReferenceImageSelect (TargetImg i) st))
   = None).
Proof.
  intros Hok Hi.
  pose proof (select_gallery_ok (TargetImg i) st Hok) as Hok'.
  revert Hok'. rewrite (select_unfold _ _ _ Hok Hi). split.
  - intros Hcur. rewrite bool_decide_eq_true_2 in Hok' |- * by done.
    split; [done|]. split.
    + by intros img (old & -> & _)%list_elem_of_fmap.
    + assert (referenceGallery
                (set_selectedReferenceImage None
                   (set_referenceGallery
                      (remove_selected <$> referenceGallery st) st))
              !! i = Some (remove_selected target)) as Hi'.
      { simpl. by rewrite list_lookup_fmap, Hi. }
      rewrite (select_unfold _ _ _ Hok' Hi').
      by rewrite bool_decide_eq_false_2.
  - intros Hcur. rewrite bool_decide_eq_false_2 in Hok' |- * by done.
    split; [done|]. split.
    + intros j img Hj. simpl in Hj.
      destruct (lookup_selected_gallery _ _ _ _ _ Hi Hj)
        as [[-> ->]|[Hji (old & Hold & ->)]]; simpl; [done|].
      split; [done|]. intros ->. done.
    + assert (referenceGallery
                (set_selectedReferenceImage (Some (src target))
                   (set_referenceGallery
                      (alter add_selected i
                         (remove_selected <$> referenceGallery st)) st))
              !! i = Some (add_selected target)) as Hi'.
      { simpl. by rewrite list_lookup_alter_eq, list_lookup_fmap, Hi. }
      rewrite (select_unfold _ _ _ Hok' Hi').
      by rewrite bool_decide_eq_true_2.
Qed.

End Gallery.

(** ** Upload *)

Section Upload.

(** C9: a file whose declared type does not start with [image/] is
    answered with an alert; nothing is read and the state, with the
    uploaded image, the selection and the preview, is untouched. *)
Theorem upload_rejects_other_types env n file st :
  Js.startsWith "image/" (file_type file) = false →
  run env n (handleImageUpload file st)
  = (st, [Out (alert "Please select an image file.")]).
Proof. intros H. unfold handleImageUpload. by rewrite H. Qed.

End Upload.

(** ** Start-up *)

Section Startup.

Lemma dispatch_inert ev st :
  listening st = false →
  promptInput_disabled st = true →
  dispatch ev st = Ret st.
Proof. intros Hl Hp. destruct ev; unfold dispatch; by rewrite ?Hl, ?Hp. Qed.

Lemma session_inert env evs st :
  listening st = false →
  promptInput_disabled st = true →
  session env evs st = (st, []).
Proof.
  intros Hl Hp. induction evs as [|ev evs IH]; [done|].
  cbn [session]. rewrite (dispatch_inert _ _ Hl Hp). cbn [run fst snd].
  by rewrite IH.
Qed.

(** C8: when the client cannot be constructed, [main] shows the set-up
    error, disables the generate button and the prompt, and attaches no
    listener: whatever the user does afterwards changes nothing and
    calls nothing. *)
Theorem init_failure_disables env error st0 evs :
  listening st0 = false →
  let st := (run env 0 (main (Rejected error) st0)).1 in
  generateBtn_disabled st = true ∧
  promptInput_disabled st = true ∧
  errorMessage_display st = d_block ∧
  errorMessage_textContent st
  = "Error: Could not initialize the AI service. Please check your API key setup." ∧
  session env evs st = (st, []).
Proof.
  intros Hl st. repeat split; try done.
  by apply session_inert.
Qed.

End Startup.

(** ** The gallery invariant along a session *)

Section Invariant.

Context (env : Env).
Hypothesis meanwhile_ok : ∀ k st, gallery_ok st → gallery_ok (meanwhile env k st).

Lemma gallery_ok_ext st st' :
  same_selection st st' → gallery_ok st → gallery_ok st'.
Proof. intros [Hg Hs]. unfold gallery_ok. by rewrite Hg, Hs. Qed.

Lemma gallery_ok_sane st : gallery_ok st → sane_selection st.
Proof.
  intros (_ & Hne & _ & Hin) Hs.
  apply Hin, list_elem_of_fmap in Hs as (img & Hsrc & Himg).
  by apply (Hne img).
Qed.

Lemma settled_same_selection n o st :
  same_selection st (run env n (generate_settled o st)).1.
Proof.
  destruct o as [response|error]; [|by rewrite run_settled_rejected].
  destruct (imagePart response) as [image|] eqn:Hi.
  - by rewrite (run_settled_image _ _ _ _ _ Hi).
  - by rewrite (run_settled_empty _ _ _ _ Hi).
Qed.

Lemma submit_gallery_ok n st :
  gallery_ok st → gallery_ok (run env n (handleGenerateClick st)).1.
Proof.
  intros Hok.
  assert (gallery_ok (meanwhile env n (setLoading true st))) as Hok1.
  { apply meanwhile_ok. by apply (gallery_ok_ext st). }
  generalize (submit_path env n st).
  generalize (run env n (handleGenerateClick st)).
  intros r H; destruct H; simplify_eq; cbn [fst]; try done.
  - eapply gallery_ok_ext; [apply settled_same_selection|done].
  - eapply gallery_ok_ext; [apply settled_same_selection|].
    by apply meanwhile_ok.
Qed.

Lemma upload_gallery_ok n file st :
  gallery_ok st → gallery_ok (run env n (handleImageUpload file st)).1.
Proof.
  intros Hok. unfold handleImageUpload. destruct (negb _); [done|].
  cbn [run fileToGenerativePart fst].
  by eapply gallery_ok_ext; [|apply (meanwhile_ok n), Hok].
Qed.

Lemma dispatch_gallery_ok ev st :
  gallery_ok st → gallery_ok (run env 0 (dispatch ev st)).1.
Proof.
  intros Hok. destruct ev; unfold dispatch;
    try (destruct (promptInput_disabled st); by try apply (gallery_ok_ext st));
    destruct (listening st); try done; cbn [listener].
  - destruct files as [[|file ?]|]; try done. by apply upload_gallery_ok.
  - destruct files as [[|file ?]|]; cbn [upload_first];
      try (by apply (gallery_ok_ext st)).
    by apply upload_gallery_ok, (gallery_ok_ext st).
  - by apply select_gallery_ok.
  - destruct (generateBtn_disabled st); [done|]. by apply submit_gallery_ok.
Qed.

(** Every state of a session that starts from a well-formed gallery
    has a well-formed gallery, hence a selection that is a gallery
    source and not the empty string. *)
Lemma session_gallery_ok evs st :
  gallery_ok st → gallery_ok (session env evs st).1.
Proof.
  revert st. induction evs as [|ev evs IH]; intros st Hok; [done|].
  cbn [session fst]. by apply IH, dispatch_gallery_ok.
Qed.

Lemma main_gallery_ok st :
  referenceGallery st = [] →
  selectedReferenceImage st = None →
  gallery_ok (run env 0 (main (Resolved ()) st)).1.
Proof.
  intros Hg Hs. cbn [main run fst].
  by apply (gallery_ok_ext (initializeGallery st)), initializeGallery_ok.
Qed.

End Invariant.

(** ** The statements on the sample inputs *)

Section Samples.

Lemma sample_env_quiet : quiet sample_env.
Proof. by intros k st. Qed.

Lemma sample_text_env_calm : calm sample_text_env.
Proof.
  intros k st. apply rtc_once.
  exists RemoveClick, sample_env. split; [done|]. split; [|done].
  apply sample_env_quiet.
Qed.

Lemma started_page_ok : gallery_ok started_page.
Proof. exact (main_gallery_ok sample_env sample_page eq_refl eq_refl). Qed.

Lemma selected_page_ok : gallery_ok selected_page.
Proof. exact (select_gallery_ok (TargetImg 0) started_page started_page_ok). Qed.

Lemma styled_page_ok : gallery_ok styled_page.
Proof.
  apply (gallery_ok_ext
           (handleReferenceImageSelect (TargetImg 2) started_page));
    [done|].
  apply select_gallery_ok, started_page_ok.
Qed.

Lemma blank_two_spaces : Blank "  ".
Proof. by apply all_white_space_Blank. Qed.

Lemma padded_not_blank : ¬ Blank " a cat ".
Proof. by intros H%Blank_all_white_space. Qed.

Lemma submit_request_parts_witness :
  uploadedImage styled_page
  = Some (mkEncodedImage (Some "AAAA") "image/png") ∧
  sane_selection styled_page ∧
  selectedReferenceImage styled_page ≠ None ∧
  Blank (promptInput_value styled_page) ∧
  requests (run sample_env 0 (handleGenerateClick styled_page)).2
  = [mkRequest "gemini-2.5-flash-image-preview"
       [mkPart (Some (mkBlob (Some "AAAA") (Some "image/png"))) None;
        mkPart (Some (mkBlob (Some "REF") (Some "image/png"))) None;
        mkPart None
          (Some "Apply the style of the second image to the first image.")]
       [IMAGE; TEXT]].
Proof.
  assert (uploadedImage styled_page = Some sample_image) as Hup
    by reflexivity.
  assert (sane_selection styled_page) as Hsane by (vm_compute; discriminate).
  assert (selectedReferenceImage styled_page ≠ None) as Hsel
    by (vm_compute; discriminate).
  split; [exact Hup|]. split; [exact Hsane|]. split; [exact Hsel|].
  split; [exact blank_two_spaces|].
  destruct (submit_request_parts sample_env 0 styled_page sample_image
              Hup Hsane (or_introl Hsel))
    as (txt & _ & [[_ Hnb]|(_ & _ & ->)] & Hreq).
  - destruct Hnb. exact blank_two_spaces.
  - exact Hreq.
Defined.

Lemma submit_validation_witness :
  sane_selection started_page ∧
  ∃ msg, run sample_env 0 (handleGenerateClick started_page)
         = (started_page, [Out (alert msg)]).
Proof.
  assert (sane_selection started_page) as Hsane by (vm_compute; discriminate).
  split; [exact Hsane|].
  apply (submit_validation sample_env 0 started_page Hsane).
  left. reflexivity.
Defined.

Lemma submit_request_text_witness :
  sane_selection prompted_page ∧
  promptInput_value prompted_page = " a cat " ∧
  requests (run sample_env 0 (handleGenerateClick prompted_page)).2
  = [mkRequest "gemini-2.5-flash-image-preview"
       [mkPart (Some (mkBlob (Some "AAAA") (Some "image/png"))) None;
        mkPart None (Some "a cat")]
       [IMAGE; TEXT]] ∧
  trimmed_of " a cat " "a cat".
Proof.
  assert (sane_selection prompted_page) as Hsane
    by (vm_compute; discriminate).
  assert (requests (run sample_env 0 (handleGenerateClick prompted_page)).2
          = [mkRequest "gemini-2.5-flash-image-preview"
               [mkPart (Some (mkBlob (Some "AAAA") (Some "image/png"))) None;
                mkPart None (Some "a cat")]
               [IMAGE; TEXT]]) as Hreq by reflexivity.
  split; [exact Hsane|]. split; [reflexivity|]. split; [exact Hreq|].
  destruct (submit_request_text sample_env 0 prompted_page
              (mkRequest "gemini-2.5-flash-image-preview"
                 [mkPart (Some (mkBlob (Some "AAAA") (Some "image/png")))
                    None;
                  mkPart None (Some "a cat")]
                 [IMAGE; TEXT]) Hsane)
    as (images & txt & Hparts & _ & _ & _ & Htrim).
  - rewrite Hreq. left.
  - cbn [contents_parts] in Hparts.
    change [?a; ?b] with ([a] ++ [b]) in Hparts.
    apply app_inj_tail in Hparts as [_ [= <-]].
    exact (Htrim padded_not_blank).
Defined.

Lemma submit_clears_busy_witness :
  sane_selection styled_page ∧ valid_submission styled_page ∧
  loader_display (run sample_text_env 0 (handleGenerateClick styled_page)).1
  = d_none ∧
  generateBtn_disabled
    (run sample_text_env 0 (handleGenerateClick styled_page)).1
  = true.
Proof.
  assert (sane_selection styled_page) as Hsane by (vm_compute; discriminate).
  assert (valid_submission styled_page) as Hvalid.
  { split; [|left]; vm_compute; discriminate. }
  split; [exact Hsane|]. split; [exact Hvalid|].
  exact (submit_clears_busy sample_text_env 0 styled_page Hsane Hvalid).
Defined.

Lemma submit_trims_prompt_witness :
  Blank "  " ∧
  (run sample_env 0
     (handleGenerateClick (set_promptInput_value "  " prompted_page))).2
  = (run sample_env 0
       (handleGenerateClick (set_promptInput_value "" prompted_page))).2 ∧
  network_calls (run sample_env 0 (handleGenerateClick prompted_page)).2 ≠ [] ∧
  bare "a cat" ∧
  trimmed_of " a cat " "a cat".
Proof.
  split; [exact blank_two_spaces|].
  destruct (submit_trims_prompt sample_env 0 prompted_page "  "
              blank_two_spaces) as (Htrace & Hcalls & Htext).
  split; [exact Htrace|]. split.
  - apply Hcalls; [vm_compute; discriminate|exact padded_not_blank].
  - destruct (Htext
                (mkRequest "gemini-2.5-flash-image-preview"
                   [mkPart (Some (mkBlob (Some "AAAA") (Some "image/png")))
                      None;
                    mkPart None (Some "a cat")]
                   [IMAGE; TEXT])
                (mkPart None (Some "a cat")) "a cat")
      as [Hbare [Htrim|[Hb _]]].
    + vm_compute. left.
    + cbn [contents_parts]. right. left.
    + reflexivity.
    + split; [exact Hbare|exact Htrim].
    + destruct (padded_not_blank Hb).
Defined.

Lemma empty_result_reported_witness :
  calm sample_text_env ∧
  errorMessage_textContent
    (run sample_text_env 0 (handleGenerateClick prompted_page)).1
  = "Error: No image was generated. Please try a different prompt." ∧
  resultImage_display
    (run sample_text_env 0 (handleGenerateClick prompted_page)).1
  = d_none.
Proof.
  split; [exact sample_text_env_calm|].
  destruct (empty_result_reported sample_text_env 0 prompted_page
              (generate_request
                 [inline_part sample_image; text_part "a cat"])
              sample_text_response)
    as (_ & Htext & _ & Hcalm).
  - vm_compute. left.
  - reflexivity.
  - vm_compute. repeat constructor.
  - split; [exact Htext|]. exact (proj1 (Hcalm sample_text_env_calm)).
Defined.

(** C5 fails on a run the page can make.  The first submission, for
    [a cat], is pending; a picture dropped on the upload area enables
    the generate button again; the prompt is changed and the button
    clicked, and that second submission is answered with an image, which
    is rendered.  The first submission is then answered without an image
    in its first candidate: the error line shows the empty-result
    message, and the result image and the download button are on show
    beside it. *)
Theorem empty_result_beside_image :
  let first :=
    mkRequest "gemini-2.5-flash-image-preview"
      [mkPart (Some (mkBlob (Some "AAAA") (Some "image/png"))) None;
       mkPart None (Some "a cat")]
      [IMAGE; TEXT] in
  let r := run sample_race_env 0 (dispatch GenerateClick prompted_page) in
  r.2 = [GenerateCalled first] ∧
  generate_reply sample_race_env first = Resolved sample_text_response ∧
  Forall (λ p, inlineData p = None)
    (first_candidate_parts sample_text_response) ∧
  errorMessage_display r.1 = d_block ∧
  errorMessage_textContent r.1
  = "Error: No image was generated. Please try a different prompt." ∧
  resultImage_display r.1 = d_block ∧
  resultImage_src r.1 = "data:image/png;base64,OUT" ∧
  downloadBtn_display r.1 = d_flex.
Proof.
  cbv zeta. split; [reflexivity|]. split; [reflexivity|].
  split; [vm_compute; repeat constructor|].
  repeat split; reflexivity.
Qed.


Lemma init_failure_disables_witness :
  listening sample_page = false ∧
  session sample_env
    [InputChange (Some [mkFile "image/png"]); PromptEdit "a cat";
     GalleryClick (TargetImg 0); GenerateClick]
    (run sample_env 0 (main (Rejected OtherValue) sample_page)).1
  = ((run sample_env 0 (main (Rejected OtherValue) sample_page)).1, []).
Proof.
  split; [reflexivity|].
  apply (init_failure_disables sample_env OtherValue sample_page).
  reflexivity.
Defined.

Lemma upload_rejects_other_types_witness :
  Js.startsWith "image/" (file_type (mkFile "text/plain")) = false ∧
  run sample_env 0 (handleImageUpload (mkFile "text/plain") uploaded_page)
  = (uploaded_page, [Out (alert "Please select an image file.")]).
Proof.
  split; [reflexivity|].
  apply (upload_rejects_other_types sample_env 0). reflexivity.
Defined.

Lemma reference_toggle_witness :
  gallery_ok started_page ∧
  selectedReferenceImage
    (handleReferenceImageSelect (TargetImg 2) started_page)
  = Some "https://storage.googleapis.com/maker-suite-media/user-prompt-images/style-transfer-mosaic.png" ∧
  selectedReferenceImage
    (handleReferenceImageSelect (TargetImg 2)
       (handleReferenceImageSelect (TargetImg 2) started_page))
  = None.
Proof.
  split; [exact started_page_ok|].
  destruct (reference_toggle started_page 2
              (mkImg "https://storage.googleapis.com/maker-suite-media/user-prompt-images/style-transfer-mosaic.png" false)
              started_page_ok eq_refl) as [_ Hother].
  destruct Hother as (Hsel & _ & Htwice).
  - vm_compute. discriminate.
  - split; [exact Hsel|exact Htwice].
Defined.

(** A prompt of two spaces is not the empty string, yet the handler
    rejects it: emptiness is judged after trimming. *)
Lemma blank_prompt_calls_nothing :
  ¬ (∀ env n st,
       sane_selection st →
       network_calls (run env n (handleGenerateClick st)).2 ≠ [] ↔
       uploadedImage st ≠ None ∧
       (selectedReferenceImage st ≠ None ∨ promptInput_value st ≠ "")).
Proof.
  intros H.
  destruct (H sample_env 0 blank_prompt_page) as [_ Hcall].
  - vm_compute. discriminate.
  - apply Hcall; [|reflexivity].
    split; [|right]; vm_compute; discriminate.
Qed.

(** Not every valid submission sends a request.  With a subject image,
    no reference image and a prompt of two spaces, which is not the
    empty string, the handler alerts and no request leaves the page; and
    with a reference image selected that cannot be fetched, the
    submission ends before the request is made.  In either case there
    is no part list of two or three parts to speak of. *)
Lemma request_not_always_sent :
  ¬ (∀ env n st,
       sane_selection st →
       uploadedImage st ≠ None →
       selectedReferenceImage st ≠ None ∨ promptInput_value st ≠ "" →
       ∃ req,
         req ∈ requests (run env n (handleGenerateClick st)).2 ∧
         (length (contents_parts req) = 2 ∨
          length (contents_parts req) = 3))
  ∧
  ¬ (∀ env n st,
       sane_selection st →
       uploadedImage st ≠ None →
       selectedReferenceImage st ≠ None ∨ ¬ Blank (promptInput_value st) →
       ∃ req,
         req ∈ requests (run env n (handleGenerateClick st)).2 ∧
         (length (contents_parts req) = 2 ∨
          length (contents_parts req) = 3)).
Proof.
  split; intros H.
  - destruct (H sample_env 0 blank_prompt_page) as (req & Hin & _).
    + vm_compute. discriminate.
    + vm_compute. discriminate.
    + right. vm_compute. discriminate.
    + change (req ∈ []) in Hin. by apply elem_of_nil in Hin.
  - destruct (H sample_failing_env 0 styled_page) as (req & Hin & _).
    + vm_compute. discriminate.
    + vm_compute. discriminate.
    + left. vm_compute. discriminate.
    + change (req ∈ []) in Hin. by apply elem_of_nil in Hin.
Qed.

(** A prompt with a space on either side is not empty, and the text
    part of the request does not carry it: it carries the prompt less
    those spaces. *)
Lemma padded_prompt_not_carried :
  ¬ (∀ env n st req,
       sane_selection st →
       promptInput_value st ≠ "" →
       req ∈ requests (run env n (handleGenerateClick st)).2 →
       ∃ part,
         part ∈ contents_parts req ∧
         text part = Some (promptInput_value st)).
Proof.
  intros H.
  destruct (H sample_env 0 prompted_page
              (mkRequest "gemini-2.5-flash-image-preview"
                 [mkPart (Some (mkBlob (Some "AAAA") (Some "image/png")))
                    None;
                  mkPart None (Some "a cat")]
                 [IMAGE; TEXT])) as (part & Hin & Htext).
  - vm_compute. discriminate.
  - vm_compute. discriminate.
  - change (requests (run sample_env 0 (handleGenerateClick prompted_page)).2)
      with [mkRequest "gemini-2.5-flash-image-preview"
              [mkPart (Some (mkBlob (Some "AAAA") (Some "image/png"))) None;
               mkPart None (Some "a cat")]
              [IMAGE; TEXT]].
    left.
  - cbn [contents_parts] in Hin.
    repeat (apply elem_of_cons in Hin as [->|Hin]);
      [discriminate Htext|discriminate Htext|by apply elem_of_nil in Hin].
Qed.

(** The disabled button is no guard against a second submission while
    one is pending: an upload that completes meanwhile enables it
    again. *)
Lemma upload_enables_button_while_loading st :
  generateBtn_disabled
    (run sample_env 0
       (handleImageUpload (mkFile "image/png") (setLoading true st))).1
  = false ∧
  loader_display
    (run sample_env 0
       (handleImageUpload (mkFile "image/png") (setLoading true st))).1
  = d_block.
Proof. done. Qed.

(** Two clicks on the image that is selected select it again: the
    selection does not end empty from every gallery state. *)
Lemma toggle_twice_keeps_selected :
  ¬ (∀ st i target,
       gallery_ok st →
       referenceGallery st !! i = Some target →
       selectedReferenceImage
         (handleReferenceImageSelect (TargetImg i)
            (handleReferenceImageSelect (TargetImg i) st))
       = None).
Proof.
  intros H.
  specialize (H selected_page 0 _ selected_page_ok eq_refl).
  vm_compute in H. discriminate H.
Qed.

End Samples.


(** * Further properties *)

(** ** Reading a picture *)

Section Payload.

Lemma split_not_nil sep s : Js.split sep s ≠ [].
Proof.
  destruct s as [|c r]; simpl; [done|].
  destruct (Ascii.eqb c sep); [done|]. by destruct (Js.split sep r).
Qed.

Lemma split_free sep s : free_of sep s = true → Js.split sep s = [s].
Proof.
  induction s as [|c r IH]; simpl; [done|].
  intros [Hc Hr]%andb_prop. apply negb_true_iff in Hc. rewrite Hc.
  by rewrite IH.
Qed.

Lemma payload_of_other c r :
  Ascii.eqb c "," = false → payload_of (String c r) = payload_of r.
Proof.
  intros Hc. unfold payload_of. simpl. rewrite Hc.
  pose proof (split_not_nil "," r). by destruct (Js.split "," r).
Qed.

Lemma payload_of_comma r : payload_of (String "," r) = head (Js.split "," r).
Proof. unfold payload_of. simpl. by destruct (Js.split "," r). Qed.

Lemma payload_of_skip a s :
  free_of "," a = true → payload_of (a +:+ s) = payload_of s.
Proof.
  induction a as [|c a IH]; [done|]. cbn [free_of String.append].
  intros [Hc Ha]%andb_prop. apply negb_true_iff in Hc.
  change (String c a +:+ s) with (String c (a +:+ s)).
  rewrite payload_of_other by done. auto.
Qed.

Lemma payload_of_none s : payload_of s = None ↔ free_of "," s = true.
Proof.
  induction s as [|c r IH]; [done|]. cbn [free_of].
  destruct (Ascii.eqb c ",") eqn:Hc; cbn [negb andb].
  - apply Ascii.eqb_eq in Hc as ->. rewrite payload_of_comma.
    pose proof (split_not_nil "," r). by destruct (Js.split "," r).
  - by rewrite payload_of_other.
Qed.

Lemma payload_of_data_url mime payload :
  free_of "," mime = true →
  free_of "," payload = true →
  payload_of (data_url (Some mime) (Some payload)) = Some payload.
Proof.
  intros Hm Hp. unfold data_url. simpl Js.interpolate.
  rewrite (payload_of_skip "data:") by done.
  rewrite (payload_of_skip mime) by done.
  change (";base64," +:+ payload) with (";base64" +:+ String "," payload).
  rewrite (payload_of_skip ";base64") by done.
  by rewrite payload_of_comma, split_free.
Qed.

End Payload.

Section UploadMore.

Context (env : Env).

Lemma run_upload_image n file st :
  Js.startsWith "image/" (file_type file) = true →
  run env n (handleImageUpload file st) =
  (updateUIState
     (set_removeImageBtn_display d_flex
        (set_uploadPrompt_display d_none
           (set_previewImage_display d_block
              (set_previewImage_src
                 (data_url (Some (file_type file))
                    (payload_of (read_reply env file)))
                 (set_uploadedImage
                    (Some (mkEncodedImage (payload_of (read_reply env file))
                             (file_type file)))
                    (meanwhile env n st)))))),
   [ReadStarted file]).
Proof. intros H. unfold handleImageUpload. by rewrite H. Qed.

(** X1: when the reader gives the data URL of the file's own type and a
    payload, neither holding a comma, the stored image is that payload
    with that type and the preview shows the very URL that was read. *)
Theorem upload_preview_round_trip n file st payload :
  Js.startsWith "image/" (file_type file) = true →
  free_of "," (file_type file) = true →
  free_of "," payload = true →
  read_reply env file = data_url (Some (file_type file)) (Some payload) →
  uploadedImage (run env n (handleImageUpload file st)).1
  = Some (mkEncodedImage (Some payload) (file_type file)) ∧
  previewImage_src (run env n (handleImageUpload file st)).1
  = read_reply env file.
Proof.
  intros Himg Hty Hp Hread. rewrite (run_upload_image _ _ _ Himg).
  cbn [fst]. rewrite Hread, (payload_of_data_url _ _ Hty Hp). done.
Qed.

(** X2: a reader result without a comma has no element 1 after the
    split: the stored image has an undefined payload, the preview URL
    ends in [undefined], and the generate button is enabled all the
    same. *)
Theorem upload_without_payload n file st :
  Js.startsWith "image/" (file_type file) = true →
  free_of "," (read_reply env file) = true →
  uploadedImage (run env n (handleImageUpload file st)).1
  = Some (mkEncodedImage None (file_type file)) ∧
  previewImage_src (run env n (handleImageUpload file st)).1
  = "data:" +:+ file_type file +:+ ";base64,undefined" ∧
  generateBtn_disabled (run env n (handleImageUpload file st)).1 = false.
Proof.
  intros Himg Hfree. rewrite (run_upload_image _ _ _ Himg). cbn [fst].
  apply payload_of_none in Hfree. rewrite Hfree. done.
Qed.

(** X3: the last upload wins: uploading a picture after another upload
    leaves the page as uploading it alone does. *)
Theorem upload_replaces_previous n m file1 file2 st :
  quiet env →
  Js.startsWith "image/" (file_type file2) = true →
  (run env m
     (handleImageUpload file2 (run env n (handleImageUpload file1 st)).1)).1
  = (run env m (handleImageUpload file2 st)).1.
Proof.
  intros Hq H2. rewrite !(run_upload_image _ _ _ H2). cbn [fst].
  rewrite !Hq. unfold handleImageUpload.
  destruct (negb _); [done|].
  cbn [run fileToGenerativePart fst]. rewrite Hq. done.
Qed.

(** X4: removing the picture undoes an upload (removing after an upload
    gives what removing alone gives), and removing twice is removing
    once. *)
Theorem remove_undoes_upload n file st :
  quiet env →
  handleRemoveImage (run env n (handleImageUpload file st)).1
  = handleRemoveImage st ∧
  handleRemoveImage (handleRemoveImage st) = handleRemoveImage st.
Proof.
  intros Hq. split; [|done]. unfold handleImageUpload.
  destruct (negb _); [done|].
  cbn [run fileToGenerativePart fst]. rewrite Hq. done.
Qed.

End UploadMore.

(** ** The generate button and the requests of a session *)

Section Button.

Context (env : Env).

Lemma select_keeps_button target st :
  generateBtn_disabled (handleReferenceImageSelect target st)
  = generateBtn_disabled st ∧
  uploadedImage (handleReferenceImageSelect target st) = uploadedImage st.
Proof.
  unfold handleReferenceImageSelect.
  destruct target as [i|]; [|done].
  destruct (referenceGallery st !! i); [|done].
  by case_bool_decide.
Qed.

Lemma submit_button_ok n st :
  button_ok st → button_ok (run env n (handleGenerateClick st)).1.
Proof.
  intros Hok.
  generalize (submit_path env n st).
  generalize (run env n (handleGenerateClick st)).
  intros r H; destruct H; simplify_eq; cbn [fst]; try done;
    match goal with
    | |- context [run env ?m (generate_settled ?o ?s)] =>
        destruct (run_settled_shape env m o s) as ((s' & -> & _) & _)
    end; done.
Qed.

Lemma upload_button_ok n file st :
  button_ok st → button_ok (run env n (handleImageUpload file st)).1.
Proof.
  intros Hok. unfold handleImageUpload. by destruct (negb _).
Qed.

Lemma dispatch_button_ok ev st :
  button_ok st → button_ok (run env 0 (dispatch ev st)).1.
Proof.
  intros Hok. destruct ev; unfold dispatch;
    try (destruct (promptInput_disabled st); done);
    destruct (listening st); try done; cbn [listener].
  - destruct files as [[|file ?]|]; try done. by apply upload_button_ok.
  - destruct files as [[|file ?]|]; try done. by apply upload_button_ok.
  - unfold button_ok. cbn [run fst].
    by destruct (select_keeps_button target st) as [-> ->].
  - destruct (generateBtn_disabled st); [done|]. by apply submit_button_ok.
Qed.

Lemma session_keeps_button evs st :
  button_ok st → button_ok (session env evs st).1.
Proof.
  revert st. induction evs as [|ev evs IH]; intros st Hok; [done|].
  cbn [session fst]. by apply IH, dispatch_button_ok.
Qed.

(** X5: after a successful start, and after every event of a session
    handled to its end, the generate button is enabled exactly when a
    subject image is present, whatever the replies and whatever happens
    during the suspensions. *)
Theorem button_follows_image st0 evs :
  button_ok (session env evs (run env 0 (main (Resolved ()) st0)).1).1.
Proof. by apply session_keeps_button. Qed.

Lemma alerts_app (t1 t2 : list Obs) : alerts (t1 ++ t2) = alerts t1 ++ alerts t2.
Proof. apply omap_app. Qed.

Lemma alerts_generate req t : alerts (GenerateCalled req :: t) = alerts t.
Proof. done. Qed.

Lemma alerts_fetch url t : alerts (FetchStarted url :: t) = alerts t.
Proof. done. Qed.

Lemma submit_alerts n st msg :
  uploadedImage st ≠ None →
  msg ∈ alerts (run env n (handleGenerateClick st)).2 →
  msg = "Please either select a style image or write a prompt.".
Proof.
  intros Hup.
  generalize (submit_path env n st).
  generalize (run env n (handleGenerateClick st)).
  intros r H; destruct H; simplify_eq; cbn [snd]; try done;
    try match goal with
        | |- context [run env ?m (generate_settled ?o ?s)] =>
            destruct (run_settled_shape env m o s) as (_ & _ & _ & Ha)
        end.
  - by intros ->%list_elem_of_singleton.
  - rewrite alerts_generate, Ha. by intros ?%elem_of_nil.
  - by intros ?%elem_of_nil.
  - rewrite alerts_fetch, alerts_generate, Ha. by intros ?%elem_of_nil.
Qed.

Lemma upload_alerts n file st msg :
  msg ∈ alerts (run env n (handleImageUpload file st)).2 →
  msg = "Please select an image file.".
Proof.
  unfold handleImageUpload. destruct (negb _); cbn.
  - by intros ->%list_elem_of_singleton.
  - by intros ?%elem_of_nil.
Qed.

Lemma dispatch_alerts ev st msg :
  button_ok st →
  msg ∈ alerts (run env 0 (dispatch ev st)).2 →
  msg = "Please select an image file." ∨
  msg = "Please either select a style image or write a prompt.".
Proof.
  intros Hok. destruct ev; unfold dispatch;
    try (destruct (promptInput_disabled st); by intros ?%elem_of_nil);
    destruct (listening st); try (by intros ?%elem_of_nil); cbn [listener];
    try (by intros ?%elem_of_nil).
  - destruct files as [[|file ?]|]; try (by intros ?%elem_of_nil).
    intros H. left. by eapply upload_alerts.
  - destruct files as [[|file ?]|]; try (by intros ?%elem_of_nil).
    intros H. left. by eapply upload_alerts.
  - destruct (generateBtn_disabled st) eqn:Hb; [by intros ?%elem_of_nil|].
    intros H. right. eapply submit_alerts; [|done].
    unfold button_ok in Hok. rewrite Hb in Hok.
    by destruct (uploadedImage st).
Qed.

(** X6: in a session the alert of the first check of the submit handler
    never shows: the button that leads to it is disabled whenever no
    subject image is present.  The only alerts are the one of the upload
    handler and the one of the second check. *)
Theorem upload_first_alert_never_shows evs st msg :
  button_ok st →
  msg ∈ alerts (session env evs st).2 →
  msg ≠ "Please upload an image first." ∧
  (msg = "Please select an image file." ∨
   msg = "Please either select a style image or write a prompt.").
Proof.
  revert st. induction evs as [|ev evs IH]; intros st Hok;
    [by intros ?%elem_of_nil|].
  cbn [session snd]. rewrite alerts_app, elem_of_app. intros [H|H].
  - destruct (dispatch_alerts _ _ _ Hok H) as [->| ->]; split; auto; done.
  - eapply IH; [|done]. by apply dispatch_button_ok.
Qed.

Lemma requests_app (t1 t2 : list Obs) :
  requests (t1 ++ t2) = requests t1 ++ requests t2.
Proof. apply omap_app. Qed.

Lemma submit_requests_length n st :
  length (requests (run env n (handleGenerateClick st)).2) ≤ 1.
Proof.
  generalize (submit_path env n st).
  generalize (run env n (handleGenerateClick st)).
  intros r H; destruct H; simplify_eq; cbn [snd];
    rewrite ?requests_fetch, ?requests_generate;
    try match goal with
        | |- context [run env ?m (generate_settled ?o ?s)] =>
            destruct (run_settled_shape env m o s) as (_ & -> & _)
        end; cbn; lia.
Qed.

Lemma upload_requests n file st :
  requests (run env n (handleImageUpload file st)).2 = [].
Proof. unfold handleImageUpload. by destruct (negb _). Qed.

Lemma dispatch_requests_length ev st :
  length (requests (run env 0 (dispatch ev st)).2)
  ≤ (if is_generate_click ev then 1 else 0).
Proof.
  destruct ev; unfold dispatch;
    try (destruct (promptInput_disabled st); cbn; lia);
    destruct (listening st); cbn [listener is_generate_click];
    try (cbn; lia).
  - destruct files as [[|file ?]|]; try (cbn; lia).
    cbn [upload_first]. rewrite upload_requests. cbn. lia.
  - destruct files as [[|file ?]|]; try (cbn; lia).
    cbn [upload_first]. rewrite upload_requests. cbn. lia.
  - destruct (generateBtn_disabled st); [cbn; lia|].
    apply submit_requests_length.
Qed.

(** X7: no retry and no request of its own accord: a session sends at
    most one service request per click on the generate button. *)
Theorem one_request_per_click evs st :
  length (requests (session env evs st).2)
  ≤ length (filter is_generate_click evs).
Proof.
  revert st. induction evs as [|ev evs IH]; intros st; [done|].
  cbn [session snd]. rewrite requests_app, length_app.
  pose proof (dispatch_requests_length ev st) as Hev.
  pose proof (IH (run env 0 (dispatch ev st)).1) as Hrest.
  destruct (is_generate_click ev) eqn:Hc.
  - rewrite filter_cons_True by (by apply Is_true_true_2). simpl. lia.
  - rewrite filter_cons_False by (by apply Is_true_false_2). lia.
Qed.

End Button.

(** ** The preset gallery along a session *)

Section Kept.

(** A property of the gallery and the selection that a gallery click
    keeps is kept by every event, provided the activity during the
    suspensions keeps it. *)
Context (P : State → Prop).
Hypothesis P_ext : ∀ st st', same_selection st st' → P st → P st'.
Hypothesis P_select :
  ∀ target st, P st → P (handleReferenceImageSelect target st).

Lemma kept_by_submit env n st :
  (∀ k s, P s → P (meanwhile env k s)) →
  P st → P (run env n (handleGenerateClick st)).1.
Proof.
  intros Hm Hok.
  assert (P (meanwhile env n (setLoading true st))) as Hok1.
  { apply Hm. by apply (P_ext st). }
  generalize (submit_path env n st).
  generalize (run env n (handleGenerateClick st)).
  intros r H; destruct H; simplify_eq; cbn [fst]; try done.
  - eapply P_ext; [apply settled_same_selection|done].
  - by eapply P_ext; [|apply Hok1].
  - eapply P_ext; [apply settled_same_selection|]. by apply Hm.
Qed.

Lemma kept_by_upload env n file st :
  (∀ k s, P s → P (meanwhile env k s)) →
  P st → P (run env n (handleImageUpload file st)).1.
Proof.
  intros Hm Hok. unfold handleImageUpload. destruct (negb _); [done|].
  cbn [run fileToGenerativePart fst].
  by eapply P_ext; [|apply (Hm n), Hok].
Qed.

Lemma kept_by_dispatch env ev st :
  (∀ k s, P s → P (meanwhile env k s)) →
  P st → P (run env 0 (dispatch ev st)).1.
Proof.
  intros Hm Hok. destruct ev; unfold dispatch;
    try (destruct (promptInput_disabled st); by try apply (P_ext st));
    destruct (listening st); try done; cbn [listener run fst];
    try (by apply (P_ext st)).
  - destruct files as [[|file ?]|]; try done. by apply kept_by_upload.
  - destruct files as [[|file ?]|]; cbn [upload_first];
      try (by apply (P_ext st)).
    by apply kept_by_upload, (P_ext st).
  - by apply P_select.
  - destruct (generateBtn_disabled st); [done|]. by apply kept_by_submit.
Qed.

Lemma kept_by_user_steps st st' : rtc user_step st st' → P st → P st'.
Proof.
  induction 1 as [st|st st1 st2 (ev & env & _ & Hq & ->) _ IH]; [done|].
  intros Hok. apply IH, kept_by_dispatch; [|done].
  intros k s. by rewrite Hq.
Qed.

Lemma kept_by_session env evs st :
  calm env → P st → P (session env evs st).1.
Proof.
  intros Hc. revert st. induction evs as [|ev evs IH]; intros st Hok; [done|].
  cbn [session fst]. apply IH, kept_by_dispatch; [|done].
  intros k s. apply kept_by_user_steps, Hc.
Qed.

End Kept.

Section Presets.

Lemma preset_gallery_ext st st' :
  same_selection st st' → preset_gallery st → preset_gallery st'.
Proof.
  intros Hsame [Hok Hsrc]. split; [by eapply gallery_ok_ext|].
  destruct Hsame as [-> _]. done.
Qed.

Lemma preset_gallery_select target st :
  preset_gallery st → preset_gallery (handleReferenceImageSelect target st).
Proof.
  intros [Hok Hsrc]. split; [by apply select_gallery_ok|].
  destruct target as [i|]; [|done].
  destruct (referenceGallery st !! i) as [target|] eqn:Hi;
    [|by unfold handleReferenceImageSelect; rewrite Hi].
  rewrite (select_unfold _ _ _ Hok Hi).
  case_bool_decide; simpl;
    by rewrite ?src_add_selected, src_remove_selected.
Qed.

Lemma preset_gallery_main env st :
  referenceGallery st = [] →
  selectedReferenceImage st = None →
  preset_gallery (run env 0 (main (Resolved ()) st)).1.
Proof.
  intros Hg Hs. split; [by apply main_gallery_ok|].
  cbn [main run fst initializeGallery initializeEventListeners].
  unfold updateUIState, initializeEventListeners, initializeGallery.
  cbn [referenceGallery set_generateBtn_disabled set_listening
         set_referenceGallery].
  rewrite Hg, app_nil_l, <- list_fmap_compose.
  by rewrite (list_fmap_ext _ id referenceImages), list_fmap_id.
Qed.

Lemma preset_gallery_session env evs st :
  calm env → preset_gallery st → preset_gallery (session env evs st).1.
Proof.
  apply (kept_by_session preset_gallery);
    [apply preset_gallery_ext|apply preset_gallery_select].
Qed.

Lemma preset_selection st url :
  preset_gallery st →
  selectedReferenceImage st = Some url → url ∈ referenceImages.
Proof. intros [(_ & _ & _ & Hin) <-]. apply Hin. Qed.

Lemma settled_no_fetch env m o st url :
  FetchStarted url ∉ (run env m (generate_settled o st)).2.
Proof.
  destruct (run_settled_shape env m o st) as (_ & _ & Hnet & _).
  intros Hin.
  assert (FetchStarted url ∈ network_calls (run env m (generate_settled o st)).2)
    as Hf by (by apply list_elem_of_filter).
  rewrite Hnet in Hf. by apply elem_of_nil in Hf.
Qed.

Lemma submit_fetches_selection env n st url :
  FetchStarted url ∈ (run env n (handleGenerateClick st)).2 →
  selectedReferenceImage st = Some url.
Proof.
  generalize (submit_path env n st).
  generalize (run env n (handleGenerateClick st)).
  intros r H; destruct H; simplify_eq; cbn [snd]; intros Hin;
    repeat (apply elem_of_cons in Hin as [Hin|Hin]; simplify_eq);
    try (by apply elem_of_nil in Hin);
    try (by apply settled_no_fetch in Hin); done.
Qed.

Lemma dispatch_fetches_selection env ev st url :
  FetchStarted url ∈ (run env 0 (dispatch ev st)).2 →
  selectedReferenceImage st = Some url.
Proof.
  destruct ev; unfold dispatch;
    try (destruct (promptInput_disabled st); by intros ?%elem_of_nil);
    destruct (listening st); cbn [listener run snd];
    try (by intros ?%elem_of_nil).
  - destruct files as [[|file ?]|]; try (by intros ?%elem_of_nil).
    unfold upload_first, handleImageUpload. destruct (negb _); cbn;
      intros Hin; repeat (apply elem_of_cons in Hin as [Hin|Hin]; simplify_eq);
      by apply elem_of_nil in Hin.
  - destruct files as [[|file ?]|]; try (by intros ?%elem_of_nil).
    unfold upload_first, handleImageUpload. destruct (negb _); cbn;
      intros Hin; repeat (apply elem_of_cons in Hin as [Hin|Hin]; simplify_eq);
      by apply elem_of_nil in Hin.
  - destruct (generateBtn_disabled st); [by intros ?%elem_of_nil|].
    apply submit_fetches_selection.
  - intros Hin. repeat (apply elem_of_cons in Hin as [Hin|Hin]; simplify_eq).
    by apply elem_of_nil in Hin.
Qed.

Lemma session_fetches_presets env evs st url :
  calm env →
  preset_gallery st →
  FetchStarted url ∈ (session env evs st).2 →
  url ∈ referenceImages.
Proof.
  intros Hc. revert st. induction evs as [|ev evs IH]; intros st Hok;
    [by intros ?%elem_of_nil|].
  cbn [session snd]. rewrite elem_of_app. intros [H|H].
  - eapply preset_selection; [done|]. by eapply dispatch_fetches_selection.
  - eapply IH; [|done].
    apply (preset_gallery_session env [ev] st Hc Hok).
Qed.

(** X8: started on a page whose gallery container is empty, the page
    only ever fetches one of the preset reference images: every URL
    fetched in a session is in [referenceImages]. *)
Theorem only_presets_are_fetched env st0 evs url :
  calm env →
  referenceGallery st0 = [] →
  selectedReferenceImage st0 = None →
  FetchStarted url
    ∈ (session env evs (run env 0 (main (Resolved ()) st0)).1).2 →
  url ∈ referenceImages.
Proof.
  intros Hc Hg Hs. apply session_fetches_presets; [done|].
  by apply preset_gallery_main.
Qed.

Lemma gallery_ok_single st i j a b :
  gallery_ok st →
  referenceGallery st !! i = Some a →
  referenceGallery st !! j = Some b →
  selected a = true → selected b = true → i = j.
Proof.
  intros (Hnd & _ & Hsel & _) Hi Hj Ha Hb.
  apply Hsel in Ha; [|by eapply list_elem_of_lookup_2].
  apply Hsel in Hb; [|by eapply list_elem_of_lookup_2].
  rewrite Ha in Hb. injection Hb as Hsrc.
  apply (NoDup_lookup _ _ _ (src a) Hnd);
    rewrite list_lookup_fmap; [by rewrite Hi|by rewrite Hj, Hsrc].
Qed.

(** X9: at every point of such a session the gallery shows the eight
    presets in order, at most one of them is marked selected, and the
    marked one is the image whose source is [selectedReferenceImage]. *)
Theorem single_selection_in_session env st0 evs :
  calm env →
  referenceGallery st0 = [] →
  selectedReferenceImage st0 = None →
  let st := (session env evs (run env 0 (main (Resolved ()) st0)).1).1 in
  src <$> referenceGallery st = referenceImages ∧
  (∀ i j a b,
     referenceGallery st !! i = Some a →
     referenceGallery st !! j = Some b →
     selected a = true → selected b = true → i = j) ∧
  (∀ img, img ∈ referenceGallery st →
     selected img = true ↔ selectedReferenceImage st = Some (src img)).
Proof.
  intros Hc Hg Hs st.
  assert (preset_gallery st) as [Hok Hsrc].
  { apply preset_gallery_session; [done|]. by apply preset_gallery_main. }
  split; [done|]. split.
  - intros i j a b. by apply gallery_ok_single.
  - by destruct Hok as (_ & _ & Hsel & _).
Qed.

End Presets.

(** ** Outcomes of a submission *)

Section Outcomes.

Context (env : Env) (n : nat).

Lemma find_image_split ps p :
  List.find (λ part, negb (is_null (inlineData part))) ps = Some p →
  ∃ pre post image,
    ps = pre ++ p :: post ∧
    Forall (λ q, inlineData q = None) pre ∧
    inlineData p = Some image.
Proof.
  induction ps as [|q ps IH]; simpl; [done|].
  destruct (inlineData q) as [image|] eqn:Hq; simpl.
  - intros [= <-]. exists [], ps, image. by repeat split.
  - intros (pre & post & image & -> & Hpre & Hp)%IH.
    exists (q :: pre), post, image. split; [done|]. split; [|done].
    by constructor.
Qed.

(** X10: the scan of a response, in full: when it finds nothing, no part
    of the first candidate carries inline data; when it finds an image,
    that image is the inline data of a part of the first candidate and no
    part before it carries any. *)
Theorem imagePart_first_of_first response :
  match imagePart response with
  | None => Forall (λ p, inlineData p = None) (first_candidate_parts response)
  | Some image =>
      ∃ pre p post,
        first_candidate_parts response = pre ++ p :: post ∧
        Forall (λ q, inlineData q = None) pre ∧
        inlineData p = Some image
  end.
Proof.
  unfold imagePart, first_candidate_parts.
  destruct (candidates response) as [[|c cs]|]; simpl; try done.
  destruct (content c) as [[[ps|]]|]; simpl; try done.
  destruct (List.find _ ps) as [p|] eqn:Hfind; simpl.
  - apply find_image_split in Hfind as (pre & post & image & -> & Hpre & Hp).
    rewrite Hp. by exists pre, p, post.
  - apply Forall_forall. intros q Hq.
    apply list_elem_of_In in Hq.
    pose proof (List.find_none _ _ Hfind q Hq) as Hnone. simpl in Hnone.
    by destruct (inlineData q).
Qed.

(** The state in which the response handler of a submission starts is
    one the page was left in by the activity during a suspension. *)
Lemma submit_response_after_meanwhile st req :
  GenerateCalled req ∈ (run env n (handleGenerateClick st)).2 →
  ∃ m k s,
    (run env n (handleGenerateClick st)).1
    = (run env m (generate_settled (generate_reply env req)
                    (meanwhile env k s))).1.
Proof.
  generalize (submit_path env n st).
  generalize (run env n (handleGenerateClick st)).
  intros r H; destruct H; simplify_eq; cbn [fst snd]; intros Hin;
    repeat (apply elem_of_cons in Hin as [Hin|Hin]; simplify_eq);
    try (by apply elem_of_nil in Hin);
    try (by apply settled_no_request in Hin);
    by eexists _, _, _.
Qed.

(** X11: a service call that is rejected is reported, not thrown: the
    thrown value goes to the console, the error line shows its message
    (or the fixed text when it is not an [Error]), the loader is hidden,
    and in a calm environment the result image stays hidden. *)
Theorem service_rejection_reported st req error :
  GenerateCalled req ∈ (run env n (handleGenerateClick st)).2 →
  generate_reply env req = Rejected error →
  Out (console_error error) ∈ (run env n (handleGenerateClick st)).2 ∧
  errorMessage_textContent (run env n (handleGenerateClick st)).1
  = "Error: " +:+ shown_message error ∧
  errorMessage_display (run env n (handleGenerateClick st)).1 = d_block ∧
  loader_display (run env n (handleGenerateClick st)).1 = d_none ∧
  (calm env →
   resultImage_display (run env n (handleGenerateClick st)).1 = d_none).
Proof.
  intros Hin Hreply. split.
  - revert Hin.
    generalize (submit_path env n st).
    generalize (run env n (handleGenerateClick st)).
    intros r H; destruct H; simplify_eq; cbn [snd]; intros Hin;
      repeat (apply elem_of_cons in Hin as [Hin|Hin]; simplify_eq);
      try (by apply elem_of_nil in Hin);
      try (by apply settled_no_request in Hin);
      rewrite Hreply, run_settled_rejected; cbn [snd];
      repeat first [apply list_elem_of_here | apply list_elem_of_further].
  - destruct (submit_response env n st req Hin) as (m & st1 & -> & Hsame).
    rewrite Hreply, run_settled_rejected. cbn [fst].
    repeat split; try done.
    intros Hc. by destruct (Hsame Hc) as (_ & Himg & _).
Qed.

(** X12: a reference image that cannot be fetched ends the submission
    before any service request: the thrown value is reported in the
    error line and the loader is hidden. *)
Theorem fetch_rejection_reported st up url error :
  uploadedImage st = Some up →
  selectedReferenceImage st = Some url →
  url ≠ "" →
  fetch_reply env url = Rejected error →
  (run env n (handleGenerateClick st)).2
  = [FetchStarted url; Out (console_error error)] ∧
  errorMessage_textContent (run env n (handleGenerateClick st)).1
  = "Error: " +:+ shown_message error ∧
  errorMessage_display (run env n (handleGenerateClick st)).1 = d_block ∧
  loader_display (run env n (handleGenerateClick st)).1 = d_none.
Proof.
  intros Hup Hsel Hurl Hfetch.
  generalize (submit_path env n st).
  generalize (run env n (handleGenerateClick st)).
  intros r H; destruct H; simplify_eq; try done;
    try (match goal with
         | H : Js.truthy_or_null (selectedReferenceImage st) = false |- _ =>
             rewrite Hsel in H; destruct url; [done|discriminate H]
         end);
    rewrite Hfetch in *; simplify_eq. done.
Qed.

(** X13: a response that carries an image leaves no error on show: in a
    calm environment the error line is hidden, the loader is hidden and
    the result image is shown. *)
Theorem image_result_hides_error st req response image :
  calm env →
  GenerateCalled req ∈ (run env n (handleGenerateClick st)).2 →
  generate_reply env req = Resolved response →
  imagePart response = Some image →
  errorMessage_display (run env n (handleGenerateClick st)).1 = d_none ∧
  loader_display (run env n (handleGenerateClick st)).1 = d_none ∧
  resultImage_display (run env n (handleGenerateClick st)).1 = d_block.
Proof.
  intros Hc Hin Hreply Himage.
  destruct (submit_response env n st req Hin) as (m & st1 & -> & Hsame).
  destruct (Hsame Hc) as (_ & _ & _ & Herr & _).
  rewrite Hreply, (run_settled_image _ _ _ _ _ Himage). cbn [fst].
  repeat split; try done.
Qed.

(** X14: [resultImage.src] is written by a response with an image and by
    nothing else: in a calm environment a submission either leaves it as
    it was (validation failure, rejection, empty result) or sets it to
    the data URL of the image its response carried. *)
Theorem result_src_set_only_by_image st :
  calm env →
  resultImage_src (run env n (handleGenerateClick st)).1 = resultImage_src st ∨
  ∃ req response image,
    GenerateCalled req ∈ (run env n (handleGenerateClick st)).2 ∧
    generate_reply env req = Resolved response ∧
    imagePart response = Some image ∧
    resultImage_src (run env n (handleGenerateClick st)).1
    = data_url (blob_mimeType image) (data image).
Proof.
  intros Hc.
  assert (∀ k, resultImage_src (meanwhile env k (setLoading true st))
               = resultImage_src st) as H1.
  { intros k.
    by destruct (user_steps_same_result _ _ (Hc k (setLoading true st)))
      as (-> & _). }
  assert (∀ k k', resultImage_src
                    (meanwhile env k' (meanwhile env k (setLoading true st)))
                  = resultImage_src st) as H2.
  { intros k k'.
    destruct (user_steps_same_result _ _
                (Hc k' (meanwhile env k (setLoading true st)))) as (-> & _).
    apply H1. }
  generalize (submit_path env n st).
  generalize (run env n (handleGenerateClick st)).
  intros r H; destruct H; simplify_eq; cbn [fst snd]; try (by left).
  - destruct (generate_reply env _) as [response|error] eqn:Hreply.
    + destruct (imagePart response) as [image|] eqn:Himage.
      * right. eexists _, response, image.
        rewrite (run_settled_image _ _ _ _ _ Himage).
        split; [left|]. done.
      * left. rewrite (run_settled_empty _ _ _ _ Himage). cbn [fst].
        apply H1.
    + left. rewrite run_settled_rejected. cbn [fst]. apply H1.
  - left. apply H1.
  - destruct (generate_reply env _) as [response|error] eqn:Hreply.
    + destruct (imagePart response) as [image|] eqn:Himage.
      * right. eexists _, response, image.
        rewrite (run_settled_image _ _ _ _ _ Himage).
        split; [right; left|]. done.
      * left. rewrite (run_settled_empty _ _ _ _ Himage). cbn [fst].
        apply H2.
    + left. rewrite run_settled_rejected. cbn [fst]. apply H2.
Qed.

Lemma run_download env' st :
  listening st = true →
  run env' 0 (dispatch DownloadClick st)
  = (st, [Out (download (src_read env' (resultImage_src st))
                 "fused-image.png")]).
Proof. intros Hl. unfold dispatch. rewrite Hl. reflexivity. Qed.

Lemma run_settled_image_src m response image st :
  imagePart response = Some image →
  resultImage_src (run env m (generate_settled (Resolved response) st)).1
  = data_url (blob_mimeType image) (data image).
Proof. intros H. rewrite (run_settled_image _ _ _ _ _ H). reflexivity. Qed.

(** X15: the download exports what was rendered, as the page reads it
    back: after a submission whose response carried an image, a click on
    the download button, when the listeners are attached, saves under
    the name [fused-image.png] what the [src] getter of the result image
    returns for the data URL made of that image's type and data, and
    changes nothing. *)
Theorem download_exports_rendered st req response image env' :
  GenerateCalled req ∈ (run env n (handleGenerateClick st)).2 →
  generate_reply env req = Resolved response →
  imagePart response = Some image →
  listening (run env n (handleGenerateClick st)).1 = true →
  run env' 0 (dispatch DownloadClick (run env n (handleGenerateClick st)).1)
  = ((run env n (handleGenerateClick st)).1,
     [Out (download
             (src_read env'
                ("data:" +:+ Js.interpolate (blob_mimeType image)
                 +:+ ";base64," +:+ Js.interpolate (data image)))
             "fused-image.png")]).
Proof.
  intros Hin Hreply Himage Hl.
  rewrite (run_download _ _ Hl). do 5 f_equal.
  destruct (submit_response env n st req Hin) as (m & st1 & -> & _).
  rewrite Hreply. by apply run_settled_image_src.
Qed.

(** X16: a submission that overlaps another can end with an error and a
    result image both on show: when, during its suspensions, the response
    handler of another submission renders an image, and its own response
    then carries none, the error line is shown next to that image. *)
Theorem overlapping_submission_shows_both st req response other image :
  (∀ k s, meanwhile env k s
          = (run env 0 (generate_settled (Resolved other) s)).1) →
  imagePart other = Some image →
  GenerateCalled req ∈ (run env n (handleGenerateClick st)).2 →
  generate_reply env req = Resolved response →
  imagePart response = None →
  errorMessage_display (run env n (handleGenerateClick st)).1 = d_block ∧
  resultImage_display (run env n (handleGenerateClick st)).1 = d_block ∧
  resultImage_src (run env n (handleGenerateClick st)).1
  = data_url (blob_mimeType image) (data image).
Proof.
  intros Hm Hother Hin Hreply Hnone.
  destruct (submit_response_after_meanwhile st req Hin) as (m & k & s & ->).
  rewrite Hreply, (run_settled_empty _ _ _ _ Hnone), Hm.
  rewrite (run_settled_image _ _ _ _ _ Hother). done.
Qed.

End Outcomes.

(** ** Uploads and submissions together *)

Section Together.

Context (env : Env).

Lemma dispatch_generate st :
  listening st = true →
  generateBtn_disabled st = false →
  dispatch GenerateClick st = handleGenerateClick st.
Proof.
  intros Hl Hb. unfold dispatch. rewrite Hl. cbn [listener].
  rewrite Hb. reflexivity.
Qed.

Lemma dispatch_prompt value st :
  promptInput_disabled st = false →
  dispatch (PromptEdit value) st = Ret (set_promptInput_value value st).
Proof. intros Hd. unfold dispatch. rewrite Hd. reflexivity. Qed.

Lemma dispatch_upload file st :
  listening st = true →
  dispatch (InputChange (Some [file])) st = handleImageUpload file st.
Proof. intros Hl. unfold dispatch. rewrite Hl. reflexivity. Qed.

(** X17: the disabled button does not keep a second submission out while
    one is pending: an upload that completes during the loading state
    enables the button with the loader still shown, and the next click
    runs the submit handler. *)
Theorem upload_during_loading_enables_button n file st :
  quiet env →
  Js.startsWith "image/" (file_type file) = true →
  listening st = true →
  loader_display
    (run env n (handleImageUpload file (setLoading true st))).1 = d_block ∧
  generateBtn_disabled
    (run env n (handleImageUpload file (setLoading true st))).1 = false ∧
  dispatch GenerateClick
    (run env n (handleImageUpload file (setLoading true st))).1
  = handleGenerateClick
      (run env n (handleImageUpload file (setLoading true st))).1.
Proof.
  intros Hq Himg Hl. rewrite (run_upload_image env _ _ _ Himg). cbn [fst].
  rewrite Hq. split; [reflexivity|]. split; [reflexivity|].
  apply dispatch_generate; [exact Hl|reflexivity].
Qed.

Lemma submit_prompt_only n st up :
  uploadedImage st = Some up →
  selectedReferenceImage st = None →
  Js.trim (promptInput_value st) ≠ "" →
  requests (run env n (handleGenerateClick st)).2
  = [generate_request
       [inline_part up; text_part (Js.trim (promptInput_value st))]].
Proof.
  intros Hup Hsel Hp.
  generalize (submit_path env n st).
  generalize (run env n (handleGenerateClick st)).
  intros r H; destruct H; simplify_eq; try congruence.
  cbn [snd]. rewrite requests_generate.
  match goal with
  | |- context [run env ?m (generate_settled ?o ?s)] =>
      destruct (run_settled_shape env m o s) as (_ & -> & _)
  end. reflexivity.
Qed.

(** X18: what is sent is what was read and typed: uploading a picture,
    typing a prompt that is not blank and clicking generate, with no
    style selected, sends one request of two parts: an image part whose
    data is element 1 of the reader's result split at commas and whose
    type is the file's declared type, then a text part whose text is the
    prompt less the white space around it. *)
Theorem upload_then_submit st file prompt :
  quiet env →
  listening st = true →
  promptInput_disabled st = false →
  selectedReferenceImage st = None →
  Js.startsWith "image/" (file_type file) = true →
  ¬ Blank prompt →
  ∃ txt,
    trimmed_of prompt txt ∧ txt ≠ "" ∧
    requests
      (session env
         [InputChange (Some [file]); PromptEdit prompt; GenerateClick] st).2
    = [mkRequest "gemini-2.5-flash-image-preview"
         [mkPart (Some (mkBlob (Js.split "," (read_reply env file) !! 1)
                          (Some (file_type file)))) None;
          mkPart None (Some txt)]
         [IMAGE; TEXT]].
Proof.
  intros Hq Hl Hd Hsel Himg Hp%trim_not_empty.
  exists (Js.trim prompt). split; [apply trim_trimmed|]. split; [exact Hp|].
  pose proof (run_upload_image env 0 file st Himg) as Hrun.
  rewrite Hq in Hrun.
  cbn [session]. rewrite (dispatch_upload _ _ Hl), Hrun. cbn [fst snd].
  rewrite dispatch_prompt by exact Hd. cbn [run fst snd].
  rewrite dispatch_generate by first [exact Hl|reflexivity].
  rewrite !requests_app.
  rewrite (submit_prompt_only 0 _
             (mkEncodedImage (payload_of (read_reply env file))
                (file_type file)));
    [reflexivity|reflexivity|exact Hsel|exact Hp].
Qed.

End Together.

Section Inputs.

Context (env : Env).

Lemma same_inputs_trans a b c :
  same_inputs a b → same_inputs b c → same_inputs a c.
Proof.
  intros (? & ? & ? & ? & ?) (? & ? & ? & ? & ?).
  repeat split; congruence.
Qed.

Lemma same_inputs_loading st : same_inputs st (setLoading true st).
Proof. repeat split; reflexivity. Qed.

Lemma same_inputs_error message st :
  same_inputs st (setLoading false (displayError message st)).
Proof. repeat split; reflexivity. Qed.

Lemma settled_same_inputs n o st :
  same_inputs st (run env n (generate_settled o st)).1.
Proof.
  destruct o as [response|error];
    [|rewrite run_settled_rejected; apply same_inputs_error].
  destruct (imagePart response) as [image|] eqn:Hi.
  - rewrite (run_settled_image _ _ _ _ _ Hi). repeat split; reflexivity.
  - rewrite (run_settled_empty _ _ _ _ Hi). apply same_inputs_error.
Qed.

(** X19: a submission keeps what the user has put in: when nothing else
    happens during its suspensions, the picture and its preview, the
    gallery and the selection, and the prompt are after the attempt,
    whatever its outcome, what they were before. *)
Theorem submit_keeps_inputs n st :
  quiet env →
  same_inputs st (run env n (handleGenerateClick st)).1.
Proof.
  intros Hq.
  generalize (submit_path env n st).
  generalize (run env n (handleGenerateClick st)).
  intros r H; destruct H; simplify_eq; cbn [fst]; rewrite ?Hq.
  - repeat split; reflexivity.
  - repeat split; reflexivity.
  - eapply same_inputs_trans;
      [apply same_inputs_loading|apply settled_same_inputs].
  - eapply same_inputs_trans;
      [apply same_inputs_loading|apply same_inputs_error].
  - eapply same_inputs_trans;
      [apply same_inputs_loading|apply settled_same_inputs].
Qed.

End Inputs.

(** ** The further statements on the sample inputs *)

Section MoreSamples.

Lemma sample_env_calm : calm sample_env.
Proof. intros k st. exact (rtc_refl _ _). Qed.

Lemma upload_preview_round_trip_witness :
  free_of "," "AAAA" = true ∧
  previewImage_src
    (run sample_env 0 (handleImageUpload (mkFile "image/png") started_page)).1
  = "data:image/png;base64,AAAA".
Proof.
  split; [reflexivity|].
  pose proof (upload_preview_round_trip sample_env 0 (mkFile "image/png")
                started_page "AAAA" eq_refl eq_refl eq_refl eq_refl)
    as [_ Hsrc].
  exact Hsrc.
Defined.

Lemma upload_without_payload_witness :
  free_of "," (read_reply sample_bare_env (mkFile "image/png")) = true ∧
  uploadedImage
    (run sample_bare_env 0
       (handleImageUpload (mkFile "image/png") started_page)).1
  = Some (mkEncodedImage None "image/png").
Proof.
  split; [reflexivity|].
  pose proof (upload_without_payload sample_bare_env 0 (mkFile "image/png")
                started_page eq_refl eq_refl) as [Hup _].
  exact Hup.
Defined.

Lemma upload_replaces_previous_witness :
  quiet sample_env ∧
  (run sample_env 0
     (handleImageUpload (mkFile "image/jpeg") uploaded_page)).1
  = (run sample_env 0
       (handleImageUpload (mkFile "image/jpeg") started_page)).1.
Proof.
  split; [exact sample_env_quiet|].
  exact (upload_replaces_previous sample_env 0 0 (mkFile "image/png")
           (mkFile "image/jpeg") started_page sample_env_quiet eq_refl).
Defined.

Lemma remove_undoes_upload_witness :
  quiet sample_env ∧
  handleRemoveImage uploaded_page = handleRemoveImage started_page.
Proof.
  split; [exact sample_env_quiet|].
  destruct (remove_undoes_upload sample_env 0 (mkFile "image/png")
              started_page sample_env_quiet) as [Hundo _].
  exact Hundo.
Defined.

Lemma upload_first_alert_never_shows_witness :
  button_ok started_page ∧
  "Please select an image file." ≠ "Please upload an image first.".
Proof.
  assert (button_ok started_page) as Hok by reflexivity.
  split; [exact Hok|].
  assert ("Please select an image file."
          ∈ alerts (session sample_env
                      [InputChange (Some [mkFile "text/plain"]); GenerateClick]
                      started_page).2) as Hin by (vm_compute; left).
  pose proof (upload_first_alert_never_shows sample_env
                [InputChange (Some [mkFile "text/plain"]); GenerateClick]
                started_page "Please select an image file." Hok Hin)
    as [Hne _].
  exact Hne.
Defined.

Lemma only_presets_are_fetched_witness :
  calm sample_env ∧
  "https://storage.googleapis.com/maker-suite-media/user-prompt-images/style-transfer-mosaic.png"
    ∈ referenceImages.
Proof.
  split; [exact sample_env_calm|].
  assert (FetchStarted
            "https://storage.googleapis.com/maker-suite-media/user-prompt-images/style-transfer-mosaic.png"
          ∈ (session sample_env
               [InputChange (Some [mkFile "image/png"]);
                GalleryClick (TargetImg 2); GenerateClick]
               (run sample_env 0 (main (Resolved ()) sample_page)).1).2)
    as Hin by (vm_compute; right; left).
  exact (only_presets_are_fetched sample_env sample_page _ _
           sample_env_calm eq_refl eq_refl Hin).
Defined.

Lemma single_selection_in_session_witness :
  calm sample_env ∧
  src <$> referenceGallery
            (session sample_env
               [GalleryClick (TargetImg 2); GalleryClick (TargetImg 5)]
               (run sample_env 0 (main (Resolved ()) sample_page)).1).1
  = referenceImages.
Proof.
  split; [exact sample_env_calm|].
  destruct (single_selection_in_session sample_env sample_page
              [GalleryClick (TargetImg 2); GalleryClick (TargetImg 5)]
              sample_env_calm eq_refl eq_refl) as [Hsrc _].
  exact Hsrc.
Defined.

Lemma service_rejection_reported_witness :
  errorMessage_textContent
    (run sample_failing_env 0 (handleGenerateClick prompted_page)).1
  = "Error: quota exceeded".
Proof.
  assert (GenerateCalled
            (generate_request [inline_part sample_image; text_part "a cat"])
          ∈ (run sample_failing_env 0 (handleGenerateClick prompted_page)).2)
    as Hin by (vm_compute; left).
  pose proof (service_rejection_reported sample_failing_env 0 prompted_page
                _ (ErrorInstance "quota exceeded") Hin eq_refl)
    as (_ & Htext & _).
  exact Htext.
Defined.

Lemma fetch_rejection_reported_witness :
  (run sample_failing_env 0 (handleGenerateClick styled_page)).2
  = [FetchStarted
       "https://storage.googleapis.com/maker-suite-media/user-prompt-images/style-transfer-mosaic.png";
     Out (console_error OtherValue)] ∧
  errorMessage_textContent
    (run sample_failing_env 0 (handleGenerateClick styled_page)).1
  = "Error: An unknown error occurred.".
Proof.
  assert ("https://storage.googleapis.com/maker-suite-media/user-prompt-images/style-transfer-mosaic.png" ≠ "")
    as Hurl by discriminate.
  pose proof (fetch_rejection_reported sample_failing_env 0 styled_page
                sample_image _ OtherValue eq_refl eq_refl Hurl eq_refl)
    as (Htrace & Htext & _).
  split; [exact Htrace|exact Htext].
Defined.

Lemma image_result_hides_error_witness :
  calm sample_env ∧
  errorMessage_display
    (run sample_env 0 (handleGenerateClick prompted_page)).1 = d_none.
Proof.
  split; [exact sample_env_calm|].
  assert (GenerateCalled
            (generate_request [inline_part sample_image; text_part "a cat"])
          ∈ (run sample_env 0 (handleGenerateClick prompted_page)).2)
    as Hin by (vm_compute; left).
  pose proof (image_result_hides_error sample_env 0 prompted_page _
                sample_response sample_result sample_env_calm Hin
                eq_refl eq_refl) as (Herr & _).
  exact Herr.
Defined.

Lemma result_src_set_only_by_image_witness :
  calm sample_text_env ∧
  (resultImage_src
     (run sample_text_env 0 (handleGenerateClick prompted_page)).1
   = resultImage_src prompted_page ∨
   ∃ req response image,
     GenerateCalled req
       ∈ (run sample_text_env 0 (handleGenerateClick prompted_page)).2 ∧
     generate_reply sample_text_env req = Resolved response ∧
     imagePart response = Some image ∧
     resultImage_src
       (run sample_text_env 0 (handleGenerateClick prompted_page)).1
     = data_url (blob_mimeType image) (data image)).
Proof.
  split; [exact sample_text_env_calm|].
  exact (result_src_set_only_by_image sample_text_env 0 prompted_page
           sample_text_env_calm).
Defined.

Lemma download_exports_rendered_witness :
  resultImage_src
    (run sample_wrapped_env 0 (handleGenerateClick prompted_page)).1
  = "data:image/png;base64,AB" +:+ String (ascii_of_N 10) "CD" ∧
  (run sample_wrapped_env 0
     (dispatch DownloadClick
        (run sample_wrapped_env 0 (handleGenerateClick prompted_page)).1)).2
  = [Out (download "data:image/png;base64,ABCD" "fused-image.png")].
Proof.
  split; [reflexivity|].
  assert (GenerateCalled
            (generate_request [inline_part sample_image; text_part "a cat"])
          ∈ (run sample_wrapped_env 0 (handleGenerateClick prompted_page)).2)
    as Hin by (vm_compute; left).
  pose proof (download_exports_rendered sample_wrapped_env 0 prompted_page _
                _ wrapped_result sample_wrapped_env Hin
                eq_refl eq_refl eq_refl) as Hrun.
  exact (f_equal snd Hrun).
Defined.

Lemma overlapping_submission_shows_both_witness :
  errorMessage_display
    (run sample_overlap_env 0 (handleGenerateClick prompted_page)).1
  = d_block ∧
  resultImage_display
    (run sample_overlap_env 0 (handleGenerateClick prompted_page)).1
  = d_block.
Proof.
  assert (GenerateCalled
            (generate_request [inline_part sample_image; text_part "a cat"])
          ∈ (run sample_overlap_env 0 (handleGenerateClick prompted_page)).2)
    as Hin by (vm_compute; left).
  pose proof (overlapping_submission_shows_both sample_overlap_env 0
                prompted_page _ sample_text_response sample_response
                sample_result (λ k s, eq_refl) eq_refl Hin eq_refl eq_refl)
    as (Herr & Himg & _).
  split; [exact Herr|exact Himg].
Defined.

Lemma upload_during_loading_enables_button_witness :
  quiet sample_env ∧
  generateBtn_disabled
    (run sample_env 0
       (handleImageUpload (mkFile "image/png")
          (setLoading true prompted_page))).1
  = false.
Proof.
  split; [exact sample_env_quiet|].
  destruct (upload_during_loading_enables_button sample_env 0
              (mkFile "image/png") prompted_page sample_env_quiet
              eq_refl eq_refl) as (_ & Hbtn & _).
  exact Hbtn.
Defined.

Lemma upload_then_submit_witness :
  quiet sample_env ∧
  ¬ Blank " a cat " ∧
  trimmed_of " a cat " "a cat" ∧
  requests
    (session sample_env
       [InputChange (Some [mkFile "image/png"]); PromptEdit " a cat ";
        GenerateClick] started_page).2
  = [mkRequest "gemini-2.5-flash-image-preview"
       [mkPart (Some (mkBlob (Some "AAAA") (Some "image/png"))) None;
        mkPart None (Some "a cat")]
       [IMAGE; TEXT]].
Proof.
  split; [exact sample_env_quiet|]. split; [exact padded_not_blank|].
  destruct (upload_then_submit sample_env started_page (mkFile "image/png")
              " a cat " sample_env_quiet eq_refl eq_refl eq_refl eq_refl
              padded_not_blank) as (txt & Htrim & _ & Hreq).
  assert (txt = "a cat") as ->.
  { change (requests
              (session sample_env
                 [InputChange (Some [mkFile "image/png"]);
                  PromptEdit " a cat "; GenerateClick] started_page).2)
      with [mkRequest "gemini-2.5-flash-image-preview"
              [mkPart (Some (mkBlob (Some "AAAA") (Some "image/png"))) None;
               mkPart None (Some "a cat")]
              [IMAGE; TEXT]] in Hreq.
    by injection Hreq. }
  split; [exact Htrim|exact Hreq].
Defined.

Lemma submit_keeps_inputs_witness :
  quiet sample_env ∧
  same_inputs styled_page
    (run sample_env 0 (handleGenerateClick styled_page)).1.
Proof.
  split; [exact sample_env_quiet|].
  exact (submit_keeps_inputs sample_env 0 styled_page sample_env_quiet).
Defined.

End MoreSamples.
